(** * Commercial solar calculator: the load registry and its demand figures

    A shallow embedding of [solar_calculator_app.py]: the class
    [SolarDemandCalculator] (constructor, [add_load], [calculate_demand]),
    the button handlers of [main] that mutate the calculator, and the sizing
    and cost expressions that [main] evaluates on the demand dictionary.

    Python values are modelled as the program has them:
    - every call site passes Python [int]s for [power_w], [quantity],
      [hours_per_day] ([st.number_input] with integer bounds, integer
      literals in the quick-start buttons) and the constructor is called
      with its default [48]; these are unbounded integers, [Z];
    - the methods themselves take any number: [Direct] is the registry
      called with ints or floats, where the product of [add_load] is
      rounded and can raise; the demand is modelled on loads of ints, as
      the page makes them, since [sum] over floats depends on the version of
      the interpreter (it is compensated from 3.12 on);
    - [/] is Python's true division, which yields a [float] (IEEE 754
      binary64, round to nearest even); floats are [spec_float] values of
      the Standard Library's executable specification, at [prec = 53] and
      [emax = 1024];
    - lists are objects in a store, named by references, so that two names
      for one list see each other's mutations;
    - exceptions are results of the calls that raise them. *)

From Stdlib Require Import ZArith String List Lia.
From Stdlib Require Import Floats.SpecFloat.
From stdpp Require Import base option list gmap strings.

Local Open Scope Z_scope.

(** ** Python numbers *)

Module PyNum.

(** binary64 *)
Definition prec : Z := 53.
Definition emax : Z := 1024.

Inductive exn := ZeroDivisionError | OverflowError | IndexError.

Inductive result (A : Type) :=
| Ok (a : A)
| Raise (e : exn).
Arguments Ok {A} a.
Arguments Raise {A} e.

Definition bind {A B} (r : result A) (k : A -> result B) : result B :=
  match r with
  | Ok a => k a
  | Raise e => Raise e
  end.

(** A Python number: an [int] or a [float]. *)
Inductive pynum :=
| PInt (z : Z)
| PFloat (f : spec_float).

(** The integer [z] as a floating-point datum with exponent 0; it is exact
    and need not be canonical, the operations round their results. *)
Definition exact_of_int (z : Z) : spec_float :=
  match z with
  | Z0 => S754_zero false
  | Zpos p => S754_finite false p 0
  | Zneg p => S754_finite true p 0
  end.

Definition is_inf (f : spec_float) : bool :=
  match f with S754_infinity _ => true | _ => false end.

Definition is_zero (f : spec_float) : bool :=
  match f with S754_zero _ => true | _ => false end.

Definition is_finite (f : spec_float) : bool :=
  match f with S754_zero _ | S754_finite _ _ _ => true | _ => false end.

(** [float(z)]: the nearest double, ties to even; [OverflowError]
    ("int too large to convert to float") beyond the range. *)
Definition float_of_int (z : Z) : result spec_float :=
  let f := binary_normalize prec emax z 0 false in
  if is_inf f then Raise OverflowError else Ok f.

(** [a / b] on two ints: the correctly rounded quotient;
    [ZeroDivisionError] for [b = 0], [OverflowError] ("integer division
    result too large for a float") beyond the range. *)
Definition int_truediv (a b : Z) : result spec_float :=
  if b =? 0 then Raise ZeroDivisionError
  else
    let f := SFdiv prec emax (exact_of_int a) (exact_of_int b) in
    if is_inf f then Raise OverflowError else Ok f.

(** [a / b] on two floats: [ZeroDivisionError] for a zero divisor,
    otherwise the IEEE quotient (infinities and NaN included). *)
Definition float_truediv (a b : spec_float) : result spec_float :=
  if is_zero b then Raise ZeroDivisionError else Ok (SFdiv prec emax a b).

Definition py_truediv (x y : pynum) : result pynum :=
  match x, y with
  | PInt a, PInt b => bind (int_truediv a b) (fun f => Ok (PFloat f))
  | PInt a, PFloat g =>
      bind (float_of_int a) (fun f =>
      bind (float_truediv f g) (fun q => Ok (PFloat q)))
  | PFloat f, PInt b =>
      bind (float_of_int b) (fun g =>
      bind (float_truediv f g) (fun q => Ok (PFloat q)))
  | PFloat f, PFloat g => bind (float_truediv f g) (fun q => Ok (PFloat q))
  end.

Definition py_mul (x y : pynum) : result pynum :=
  match x, y with
  | PInt a, PInt b => Ok (PInt (a * b))
  | PInt a, PFloat g =>
      bind (float_of_int a) (fun f => Ok (PFloat (SFmul prec emax f g)))
  | PFloat f, PInt b =>
      bind (float_of_int b) (fun g => Ok (PFloat (SFmul prec emax f g)))
  | PFloat f, PFloat g => Ok (PFloat (SFmul prec emax f g))
  end.

Definition py_add (x y : pynum) : result pynum :=
  match x, y with
  | PInt a, PInt b => Ok (PInt (a + b))
  | PInt a, PFloat g =>
      bind (float_of_int a) (fun f => Ok (PFloat (SFadd prec emax f g)))
  | PFloat f, PInt b =>
      bind (float_of_int b) (fun g => Ok (PFloat (SFadd prec emax f g)))
  | PFloat f, PFloat g => Ok (PFloat (SFadd prec emax f g))
  end.

(** A decimal literal [n / d] ([4.5] is [float_lit 45 10]): the parser
    rounds the decimal to the nearest double, as the correctly rounded
    quotient of the two integers does. *)
Definition float_lit (n d : Z) : spec_float :=
  SFdiv prec emax (exact_of_int n) (exact_of_int d).

(** [x == z] for a float and an int compares the exact values. *)
Definition float_eq_int (f : spec_float) (z : Z) : bool :=
  match f with
  | S754_zero _ => z =? 0
  | S754_finite s m e =>
      let sm := if s then Zneg m else Zpos m in
      if 0 <=? e then sm * 2 ^ e =? z else sm =? z * 2 ^ (- e)
  | _ => false
  end.

(** Python's [==] on numbers. *)
Definition py_eq (x y : pynum) : bool :=
  match x, y with
  | PInt a, PInt b => a =? b
  | PInt a, PFloat g => float_eq_int g a
  | PFloat f, PInt b => float_eq_int f b
  | PFloat f, PFloat g => SFeqb f g
  end.

End PyNum.

Import PyNum.

(** ** The object store *)

(** A load is the dictionary that [add_load] builds; its five keys are
    fixed, and no statement of the program assigns to one of them. The
    numbers are the ints that [main] passes; [Direct.Load] is the
    dictionary for any numbers. *)
Record Load := {
  description : string;
  power_w : Z;
  quantity : Z;
  hours_per_day : Z;
  daily_energy_wh : Z
}.

(** List objects live in a store and are named by references: an
    assignment [a = b] of a list copies the reference, not the list. *)
Definition loc := positive.
Abbreviation store := (gmap loc (list Load)).

(** What a call returns when its result is not otherwise used. *)
Inductive pyval :=
| VNone
| VInt (z : Z).

(** A computation reads and updates the store and returns or raises; the
    store it leaves is reported in both cases. *)
Definition M (A : Type) : Type := store -> result A * store.

Definition ret {A} (a : A) : M A := fun s => (Ok a, s).

Definition seq {A B} (m : M A) (k : A -> M B) : M B :=
  fun s =>
    match m s with
    | (Ok a, s') => k a s'
    | (Raise e, s') => (Raise e, s')
    end.

#[global] Instance M_ret : MRet M := @ret.
#[global] Instance M_bind : MBind M := fun A B k m => seq m k.

(** The list a reference names. *)
Definition deref (s : store) (l : loc) : list Load := default [] (s !! l).

(** [[]]: a new, empty list object. *)
Definition new_list : M loc :=
  fun s => let l := fresh (dom s) in (Ok l, <[l := []]> s).

(** [l.append(x)] *)
Definition list_append (l : loc) (x : Load) : M pyval :=
  fun s => (Ok VNone, <[l := deref s l ++ [x]]> s).

(** [l.pop(i)]: a negative index counts from the end; an index outside
    the list raises [IndexError] and leaves the list as it is. *)
Definition list_pop (l : loc) (i : Z) : M Load :=
  fun s =>
    let xs := deref s l in
    let n := Z.of_nat (length xs) in
    let j := if i <? 0 then i + n else i in
    if (j <? 0) || (n <=? j) then (Raise IndexError, s)
    else
      match xs !! Z.to_nat j with
      | Some x => (Ok x, <[l := delete (Z.to_nat j) xs]> s)
      | None => (Raise IndexError, s)
      end.

(** ** class SolarDemandCalculator *)

Record SolarDemandCalculator := {
  system_voltage : Z;
  loads : loc
}.

(** [__init__(self, system_voltage=48)] *)
Definition __init__ (system_voltage : Z) : M SolarDemandCalculator :=
  l ← new_list;
  ret {| system_voltage := system_voltage; loads := l |}.

Definition default_voltage : Z := 48.

(** The dictionary of [add_load]. *)
Definition make_load (description : string) (power_w quantity hours_per_day : Z)
  : Load :=
  {| description := description;
     power_w := power_w;
     quantity := quantity;
     hours_per_day := hours_per_day;
     daily_energy_wh := power_w * quantity * hours_per_day |}.

(** [add_load(self, description, power_w, quantity, hours_per_day)], on
    the ints that [main] passes, whose product is exact and cannot raise;
    [Direct.add_load] is the method on any numbers, and agrees with this
    one on ints ([add_load_on_ints]). The method has no [return]. *)
Definition add_load (self : SolarDemandCalculator) (description : string)
    (power_w quantity hours_per_day : Z) : M pyval :=
  list_append (loads self)
    (make_load description power_w quantity hours_per_day);;
  ret VNone.

(** The dictionary that [calculate_demand] returns. The two sums are ints
    in both branches; the other two entries are the int [0] in the first
    branch and floats in the second. *)
Record Demand := {
  total_energy_wh : Z;
  total_energy_kwh : pynum;
  total_ah : pynum;
  peak_power_w : Z
}.

(** [sum(...)]: additions from [0], left to right. *)
Definition py_sum (xs : list Z) : Z := fold_left Z.add xs 0.

Definition zero_demand : Demand :=
  {| total_energy_wh := 0;
     total_energy_kwh := PInt 0;
     total_ah := PInt 0;
     peak_power_w := 0 |}.

(** [calculate_demand(self)] *)
Definition calculate_demand (self : SolarDemandCalculator) : M Demand :=
  fun s =>
    match deref s (loads self) with
    | [] => (Ok zero_demand, s)
    | ls =>
        let total_energy_wh := py_sum (map daily_energy_wh ls) in
        let peak_power_w :=
          py_sum (map (fun load => power_w load * quantity load) ls) in
        (bind (int_truediv total_energy_wh 1000) (fun kwh =>
         bind (int_truediv total_energy_wh (system_voltage self)) (fun ah =>
         Ok {| total_energy_wh := total_energy_wh;
               total_energy_kwh := PFloat kwh;
               total_ah := PFloat ah;
               peak_power_w := peak_power_w |})), s)
    end.

(** ** The handlers of [main] *)

(** [st.session_state]: the calculator and a second name for its list. *)
Record SessionState := {
  calculator : SolarDemandCalculator;
  ss_loads : loc
}.

(** "Initialize session state": a calculator, and a list of its own for
    [session_state.loads]. *)
Definition new_session (system_voltage : Z) : M SessionState :=
  c ← __init__ system_voltage;
  l ← new_list;
  ret {| calculator := c; ss_loads := l |}.

(** [main] constructs the calculator with no argument. *)
Definition init_session : M SessionState := new_session default_voltage.

(** Reading [calculator.loads]: the reference held by the attribute. *)
Definition get_loads (c : SolarDemandCalculator) : loc := loads c.

(** [session_state.loads = session_state.calculator.loads] *)
Definition sync_loads (ss : SessionState) : SessionState :=
  {| calculator := calculator ss; ss_loads := get_loads (calculator ss) |}.

(** The "Add Load" button. *)
Definition add_load_button (name : string) (power_w quantity hours_per_day : Z)
    (ss : SessionState) : M SessionState :=
  add_load (calculator ss) name power_w quantity hours_per_day;;
  ret (sync_loads ss).

(** The "Delete" button of row [i]; [i] is the counter of [enumerate]. *)
Definition delete_button (i : nat) (ss : SessionState) : M SessionState :=
  list_pop (loads (calculator ss)) (Z.of_nat i);;
  ret (sync_loads ss).

(** The "Clear All Loads" button: each of the two names gets a new empty
    list. *)
Definition clear_button (ss : SessionState) : M SessionState :=
  l1 ← new_list;
  l2 ← new_list;
  ret {| calculator :=
           {| system_voltage := system_voltage (calculator ss); loads := l1 |};
         ss_loads := l2 |}.

(** The "Small Office Setup" button. *)
Definition small_office_button (ss : SessionState) : M SessionState :=
  add_load (calculator ss) "LED Lights" 20 15 10;;
  add_load (calculator ss) "Computers" 150 5 8;;
  add_load (calculator ss) "AC Unit" 1500 1 6;;
  ret (sync_loads ss).

(** ** Sizing and cost, as [main] evaluates them on [results] *)

(** [results['total_energy_kwh'] / 4.5] *)
Definition pv_size (results : Demand) : result pynum :=
  py_truediv (total_energy_kwh results) (PFloat (float_lit 45 10)).

(** [results['total_energy_kwh'] * 2] *)
Definition battery_capacity_kwh (results : Demand) : result pynum :=
  py_mul (total_energy_kwh results) (PInt 2).

(** [results['peak_power_w']/1000 * 1.2] *)
Definition inverter_kw (results : Demand) : result pynum :=
  bind (py_truediv (PInt (peak_power_w results)) (PInt 1000)) (fun kw =>
  py_mul kw (PFloat (float_lit 12 10))).

(** [pv_size * 1200 + (results['total_energy_kwh'] * 2) * 600] *)
Definition equipment_cost (results : Demand) : result pynum :=
  bind (pv_size results) (fun pv =>
  bind (py_mul pv (PInt 1200)) (fun a =>
  bind (py_mul (total_energy_kwh results) (PInt 2)) (fun b =>
  bind (py_mul b (PInt 600)) (fun b' =>
  py_add a b')))).

(** [equipment_cost * 1.3] *)
Definition total_cost (results : Demand) : result pynum :=
  bind (equipment_cost results) (fun e => py_mul e (PFloat (float_lit 13 10))).

(** [equipment_cost * 0.3] *)
Definition installation_cost (results : Demand) : result pynum :=
  bind (equipment_cost results) (fun e => py_mul e (PFloat (float_lit 3 10))).

(** The scenario: an empty calculator at 48 V and three loads. *)
Definition scenario : M Demand :=
  c ← __init__ 48;
  add_load c "LED Light" 20 15 10;;
  add_load c "Computer" 150 5 8;;
  add_load c "AC Unit" 1500 1 6;;
  calculate_demand c.

(** ** Runs of the application *)

(** What a user can do to the registry between two reruns of [main]. *)
Inductive action :=
| Add (name : string) (power_w quantity hours_per_day : Z)
| Delete (i : nat)
| Clear.

Definition handle (a : action) (ss : SessionState) : M SessionState :=
  match a with
  | Add name p q h => add_load_button name p q h ss
  | Delete i => delete_button i ss
  | Clear => clear_button ss
  end.

(** An exception ends the handler; the session keeps the state it had. *)
Fixpoint run_actions (acts : list action) (ss : SessionState) (s : store)
  : SessionState * store :=
  match acts with
  | [] => (ss, s)
  | a :: rest =>
      match handle a ss s with
      | (Ok ss', s') => run_actions rest ss' s'
      | (Raise _, s') => run_actions rest ss s'
      end
  end.

(** The state after [acts], from a new session at voltage [v]. *)
Definition session_after (v : Z) (acts : list action) : SessionState * store :=
  match new_session v ∅ with
  | (Ok ss, s) => run_actions acts ss s
  | (Raise _, s) =>
      ({| calculator := {| system_voltage := v; loads := 1%positive |};
          ss_loads := 1%positive |}, s)
  end.

(** The invariant of a load: the cached energy is the product. *)
Definition energy_consistent (load : Load) : Prop :=
  daily_energy_wh load = power_w load * quantity load * hours_per_day load.

Definition store_consistent (s : store) : Prop :=
  map_Forall (fun _ xs => Forall energy_consistent xs) s.

(** The sum of a list of integers. *)
Fixpoint total (xs : list Z) : Z :=
  match xs with
  | [] => 0
  | x :: r => x + total r
  end.

(** A mutation of the list object that a reference names: [append], [pop],
    [clear], [sort] and the like, each by its effect [f] on the contents. *)
Definition list_mutate (l : loc) (f : list Load -> list Load) (s : store)
  : store := <[l := f (deref s l)]> s.

(** A load to add, and the action and the dictionary it stands for. *)
Definition add_of (item : string * Z * Z * Z) : action :=
  let '(d, p, q, h) := item in Add d p q h.

Definition load_of (item : string * Z * Z * Z) : Load :=
  let '(d, p, q, h) := item in make_load d p q h.

(** The double that prints as [3.0599999999999996]. *)
Definition inverter_kw_scenario : spec_float :=
  float_lit 30599999999999996 10000000000000000.

(** The peak is computed from the powers and the quantities alone. *)
Definition peak_of (pq : list (Z * Z)) : Z :=
  total (map (fun x => x.1 * x.2) pq).

(** ** The catalogue and the form of [main] *)

Module Appliance.
Record t := { power_w : Z; typical_hours : Z }.
End Appliance.

(** The class attribute, a dictionary in the order of its literal. *)
Definition COMMERCIAL_APPLIANCES : list (string * Appliance.t) :=
  [ ("LED Light", {| Appliance.power_w := 20; Appliance.typical_hours := 8 |});
    ("Refrigerator",
       {| Appliance.power_w := 300; Appliance.typical_hours := 24 |});
    ("Computer", {| Appliance.power_w := 150; Appliance.typical_hours := 8 |});
    ("AC Unit", {| Appliance.power_w := 1500; Appliance.typical_hours := 6 |});
    ("Water Pump",
       {| Appliance.power_w := 750; Appliance.typical_hours := 4 |});
    ("Ventilation Fan",
       {| Appliance.power_w := 100; Appliance.typical_hours := 12 |});
    ("Printer", {| Appliance.power_w := 100; Appliance.typical_hours := 2 |});
    ("Security Camera",
       {| Appliance.power_w := 50; Appliance.typical_hours := 24 |}) ].

(** [d[k]]; [None] stands for [KeyError]. *)
Fixpoint dict_get {V} (d : list (string * V)) (k : string) : option V :=
  match d with
  | [] => None
  | (k', v) :: rest => if String.eqb k k' then Some v else dict_get rest k
  end.

(** [list(d.keys())] *)
Definition dict_keys {V} (d : list (string * V)) : list string := map fst d.

(** The options of the "Appliance Name" select box. *)
Definition appliance_options : list string := dict_keys COMMERCIAL_APPLIANCES.

(** The truth value of a string: it is not empty. *)
Definition truthy (x : string) : bool :=
  match x with
  | EmptyString => false
  | String _ _ => true
  end.

(** What the widgets of the form hold when "Add Load" is pressed. *)
Module Form.
Record t := {
  appliance_name : string;
  custom_name : string;
  power_w : Z;
  quantity : Z;
  hours_per_day : Z
}.
End Form.

(** The [value] that the "Power (W)" input starts from. *)
Definition default_power (appliance_name custom_name : string) : option Z :=
  if truthy custom_name then Some 100
  else
    match dict_get COMMERCIAL_APPLIANCES appliance_name with
    | Some a => Some (Appliance.power_w a)
    | None => None
    end.

(** The [value] that the "Hours per Day" input starts from. *)
Definition default_hours (appliance_name custom_name : string) : option Z :=
  if truthy custom_name then Some 8
  else
    match dict_get COMMERCIAL_APPLIANCES appliance_name with
    | Some a => Some (Appliance.typical_hours a)
    | None => None
    end.

(** The bounds of the widgets: the selection is one of the options,
    [min_value=1] for the power and the quantity, [min_value=1] and
    [max_value=24] for the hours. *)
Definition in_bounds (f : Form.t) : bool :=
  bool_decide (Form.appliance_name f ∈ appliance_options)
  && (1 <=? Form.power_w f)
  && (1 <=? Form.quantity f)
  && (1 <=? Form.hours_per_day f)
  && (Form.hours_per_day f <=? 24).

(** [custom_name if custom_name else appliance_name] *)
Definition name_to_use (f : Form.t) : string :=
  if truthy (Form.custom_name f) then Form.custom_name f
  else Form.appliance_name f.

(** The "Add Load" button, on the values of the form. *)
Definition add_load_click (f : Form.t) (ss : SessionState) : M SessionState :=
  add_load_button (name_to_use f) (Form.power_w f) (Form.quantity f)
    (Form.hours_per_day f) ss.

(** The "Retail Store Setup" button. *)
Definition retail_store_button (ss : SessionState) : M SessionState :=
  add_load (calculator ss) "LED Lights" 20 30 12;;
  add_load (calculator ss) "Refrigerator" 300 2 24;;
  add_load (calculator ss) "AC Unit" 1500 2 8;;
  ret (sync_loads ss).

(** The "Workshop Setup" button. *)
Definition workshop_button (ss : SessionState) : M SessionState :=
  add_load (calculator ss) "LED Lights" 20 20 10;;
  add_load (calculator ss) "Power Tools" 1000 3 4;;
  add_load (calculator ss) "Ventilation" 200 2 8;;
  ret (sync_loads ss).

(** A result of the pure arithmetic, inside a computation. *)
Definition lift {A} (r : result A) : M A := fun s => (r, s).

(** ** The page *)

(** The numbers that one run of [main] computes when there are loads, in
    the order of the script: the demand, the peak in kW and the PV size of
    the summary, then the figures of the tabs. *)
Record Summary := {
  results : Demand;
  peak_kw : pynum;
  pv : pynum
}.

Record Tabs := {
  battery : pynum;
  inverter : pynum;
  equipment : pynum;
  total_estimated : pynum;
  installation : pynum
}.

(** From [results = calculate_demand()] to the PV size. *)
Definition render_summary (ss : SessionState) : M Summary :=
  d ← calculate_demand (calculator ss);
  kw ← lift (py_truediv (PInt (peak_power_w d)) (PInt 1000));
  p ← lift (pv_size d);
  ret {| results := d; peak_kw := kw; pv := p |}.

(** The bodies of the three tabs. *)
Definition render_tabs (d : Demand) : M Tabs :=
  b ← lift (battery_capacity_kwh d);
  i ← lift (inverter_kw d);
  e ← lift (equipment_cost d);
  t ← lift (total_cost d);
  n ← lift (installation_cost d);
  ret {| battery := b; inverter := i; equipment := e;
         total_estimated := t; installation := n |}.

(** The numbers shown under [if st.session_state.loads:] (lines 190 to
    252), when no button is pressed: the demand, the peak in kW, the PV
    size and the figures of the tabs. Without loads none of them is
    computed. The table that the page draws before them ([pd.DataFrame],
    [st.dataframe]) and the calls that display them are not part of it. *)
Definition results_section (ss : SessionState)
  : M (option (Summary * Tabs)) :=
  fun s =>
    match deref s (ss_loads ss) with
    | [] => (Ok None, s)
    | _ =>
        (sm ← render_summary ss;
         tb ← render_tabs (results sm);
         ret (Some (sm, tb))) s
    end.

(** What the user can press. *)
Inductive event :=
| ClickAddLoad (f : Form.t)
| ClickDelete (i : nat)
| ClickClear
| ClickSmallOffice
| ClickRetailStore
| ClickWorkshop.

(** The buttons of the page drawn from a state: "Add Load" always, with a
    form within the bounds of its widgets; with loads, one "Delete" for
    each row of [session_state.loads] and "Clear All Loads"; without
    loads, the quick-start buttons. *)
Definition offered (e : event) (ss : SessionState) (s : store) : bool :=
  match e with
  | ClickAddLoad f => in_bounds f
  | ClickDelete i => bool_decide (i < length (deref s (ss_loads ss)))%nat
  | ClickClear =>
      match deref s (ss_loads ss) with [] => false | _ => true end
  | ClickSmallOffice | ClickRetailStore | ClickWorkshop =>
      match deref s (ss_loads ss) with [] => true | _ => false end
  end.

(** The rerun that a press starts, up to its [st.rerun()]. The "Clear All
    Loads" button comes after the summary in the script, so the summary is
    computed before it is reached. *)
Definition on_event (e : event) (ss : SessionState) : M SessionState :=
  match e with
  | ClickAddLoad f => add_load_click f ss
  | ClickDelete i => delete_button i ss
  | ClickClear => render_summary ss;; clear_button ss
  | ClickSmallOffice => small_office_button ss
  | ClickRetailStore => retail_store_button ss
  | ClickWorkshop => workshop_button ss
  end.

(** A session: presses of buttons that the page offers, from the initial
    state; [None] when a press is of a button that is not there. A rerun
    that raises stops with the state as the exception left it. *)
Fixpoint ui_run (es : list event) (ss : SessionState) (s : store)
  : option (SessionState * store) :=
  match es with
  | [] => Some (ss, s)
  | e :: rest =>
      if offered e ss s then
        match on_event e ss s with
        | (Ok ss', s') => ui_run rest ss' s'
        | (Raise _, s') => ui_run rest ss s'
        end
      else None
  end.

Definition ui_session (es : list event) : option (SessionState * store) :=
  match init_session ∅ with
  | (Ok ss, s) => ui_run es ss s
  | (Raise _, _) => None
  end.

(** A load as the form and the quick-start buttons make them. *)
Definition within_widget_bounds (load : Load) : Prop :=
  truthy (description load) = true /\
  1 <= power_w load /\
  1 <= quantity load /\
  1 <= hours_per_day load <= 24 /\
  daily_energy_wh load = power_w load * quantity load * hours_per_day load.

(** The two names of the session hold one list object, or two empty ones. *)
Definition names_agree (ss : SessionState) (s : store) : Prop :=
  ss_loads ss = loads (calculator ss) \/
  (deref s (ss_loads ss) = [] /\ deref s (loads (calculator ss)) = []).

Definition ui_invariant (ss : SessionState) (s : store) : Prop :=
  names_agree ss s /\
  system_voltage (calculator ss) = default_voltage /\
  Forall within_widget_bounds (deref s (loads (calculator ss))).

(** The three loads of a quick-start button; no loads for another event. *)
Definition quick_start_loads (e : event) : list Load :=
  match e with
  | ClickSmallOffice =>
      [make_load "LED Lights" 20 15 10; make_load "Computers" 150 5 8;
       make_load "AC Unit" 1500 1 6]
  | ClickRetailStore =>
      [make_load "LED Lights" 20 30 12; make_load "Refrigerator" 300 2 24;
       make_load "AC Unit" 1500 2 8]
  | ClickWorkshop =>
      [make_load "LED Lights" 20 20 10; make_load "Power Tools" 1000 3 4;
       make_load "Ventilation" 200 2 8]
  | _ => []
  end.

Definition is_quick_start (e : event) : bool :=
  match e with
  | ClickSmallOffice | ClickRetailStore | ClickWorkshop => true
  | _ => false
  end.

(** The sign bit of a float. *)
Definition sign_bit (f : spec_float) : bool :=
  match f with
  | S754_zero b | S754_infinity b | S754_finite b _ _ => b
  | S754_nan => false
  end.

(** ** The class called with any numbers *)

(** [main] passes ints, but the methods take what they are given: a
    caller of the class may pass a [float] for the power, the quantity or
    the hours. [Direct] is the registry on Python numbers: the dictionary
    of [add_load] with [int] or [float] entries, and the three operations
    on the collection, [add_load], [loads.pop(i)] and [loads = []]. *)
Module Direct.

Record Load := {
  description : string;
  power_w : pynum;
  quantity : pynum;
  hours_per_day : pynum;
  daily_energy_wh : pynum
}.

Abbreviation store := (gmap loc (list Load)).

Definition deref (s : store) (l : loc) : list Load := default [] (s !! l).

(** [power_w * quantity * hours_per_day]: two multiplications, from left
    to right. A product of an int and a float converts the int, which
    raises [OverflowError] when it is too large. *)
Definition daily_energy (power_w quantity hours_per_day : pynum)
  : result pynum :=
  bind (py_mul power_w quantity) (fun pq => py_mul pq hours_per_day).

Definition make_load (description : string)
    (power_w quantity hours_per_day daily_energy_wh : pynum) : Load :=
  {| description := description;
     power_w := power_w;
     quantity := quantity;
     hours_per_day := hours_per_day;
     daily_energy_wh := daily_energy_wh |}.

(** [add_load(self, description, power_w, quantity, hours_per_day)]: the
    dictionary, and with it the product, is evaluated before [append] is
    called, so an exception of the product leaves the list as it is. No
    statement of the method tests an argument. *)
Definition add_load (self : SolarDemandCalculator) (description : string)
    (power_w quantity hours_per_day : pynum) (s : store)
  : result pyval * store :=
  match daily_energy power_w quantity hours_per_day with
  | Ok e =>
      (Ok VNone,
       <[loads self :=
           deref s (loads self)
             ++ [make_load description power_w quantity hours_per_day e]]> s)
  | Raise ex => (Raise ex, s)
  end.

(** [self.loads.pop(i)] *)
Definition pop (self : SolarDemandCalculator) (i : Z) (s : store)
  : result Load * store :=
  let xs := deref s (loads self) in
  let n := Z.of_nat (length xs) in
  let j := if i <? 0 then i + n else i in
  if (j <? 0) || (n <=? j) then (Raise IndexError, s)
  else
    match xs !! Z.to_nat j with
    | Some x => (Ok x, <[loads self := delete (Z.to_nat j) xs]> s)
    | None => (Raise IndexError, s)
    end.

(** [self.loads = []] *)
Definition clear (self : SolarDemandCalculator) (s : store)
  : SolarDemandCalculator * store :=
  let l := fresh (dom s) in
  ({| system_voltage := system_voltage self; loads := l |}, <[l := []]> s).

(** [SolarDemandCalculator(system_voltage)] in an empty store. *)
Definition init (system_voltage : Z) : SolarDemandCalculator * store :=
  let l := fresh (dom (∅ : store)) in
  ({| system_voltage := system_voltage; loads := l |}, <[l := []]> ∅).

(** The operations on the collection. *)
Inductive op :=
| Add (description : string) (power_w quantity hours_per_day : pynum)
| Remove (i : Z)
| Clear.

(** An operation that raises leaves the calculator and the store as the
    exception left them. *)
Definition apply (o : op) (c : SolarDemandCalculator) (s : store)
  : SolarDemandCalculator * store :=
  match o with
  | Add d p q h => (c, (add_load c d p q h s).2)
  | Remove i => (c, (pop c i s).2)
  | Clear => clear c s
  end.

Fixpoint run (ops : list op) (c : SolarDemandCalculator) (s : store)
  : SolarDemandCalculator * store :=
  match ops with
  | [] => (c, s)
  | o :: rest => let '(c', s') := apply o c s in run rest c' s'
  end.

(** The calculator and the store after [ops], from a new calculator. *)
Definition after (system_voltage : Z) (ops : list op)
  : SolarDemandCalculator * store :=
  let '(c, s) := init system_voltage in run ops c s.

(** The exact value [m * 2 ^ e] of a finite number, as the pair [(m, e)];
    infinities and NaN have none. *)
Definition exact_value (x : pynum) : option (Z * Z) :=
  match x with
  | PInt z => Some (z, 0)
  | PFloat (S754_zero _) => Some (0, 0)
  | PFloat (S754_finite s m e) => Some (if s then Zneg m else Zpos m, e)
  | PFloat _ => None
  end.

Definition exact_mul (a b : Z * Z) : Z * Z := (a.1 * b.1, a.2 + b.2).

Definition exact_eqb (a b : Z * Z) : bool :=
  let e := Z.min a.2 b.2 in
  a.1 * 2 ^ (a.2 - e) =? b.1 * 2 ^ (b.2 - e).

(** The stored energy is the product of the three stored numbers, as
    real numbers. *)
Definition energy_exact (load : Load) : bool :=
  match exact_value (power_w load), exact_value (quantity load),
        exact_value (hours_per_day load), exact_value (daily_energy_wh load)
  with
  | Some p, Some q, Some h, Some e =>
      exact_eqb e (exact_mul (exact_mul p q) h)
  | _, _, _, _ => false
  end.

(** The stored energy is the value that the product of the three stored
    numbers has in Python. *)
Definition energy_is_product (load : Load) : Prop :=
  daily_energy (power_w load) (quantity load) (hours_per_day load)
    = Ok (daily_energy_wh load).

Definition store_energy_is_product (s : store) : Prop :=
  map_Forall (fun _ xs => Forall energy_is_product xs) s.

End Direct.

(** A load of ints, as a load of numbers. *)
Definition as_numbers (load : Load) : Direct.Load :=
  Direct.make_load (description load) (PInt (power_w load))
    (PInt (quantity load)) (PInt (hours_per_day load))
    (PInt (daily_energy_wh load)).

Definition numbers_store (s : store) : Direct.store :=
  fmap (M := gmap loc) (map as_numbers) s.

(** * Properties *)

(** ** The store *)

Section Store.

Implicit Types (s : store) (l : loc) (xs : list Load).

Lemma deref_insert_eq s l xs : deref (<[l := xs]> s) l = xs.
Proof. unfold deref. by rewrite lookup_insert_eq. Qed.

Lemma deref_insert_ne s l l' xs :
  l ≠ l' -> deref (<[l := xs]> s) l' = deref s l'.
Proof. intros Hne. unfold deref. by rewrite lookup_insert_ne. Qed.

Lemma new_list_fresh s : s !! fresh (dom s) = None.
Proof. apply not_elem_of_dom, is_fresh. Qed.

Lemma add_load_eq (c : SolarDemandCalculator) d p q h s :
  add_load c d p q h s =
    (Ok VNone, <[loads c := deref s (loads c) ++ [make_load d p q h]]> s).
Proof. reflexivity. Qed.


Lemma list_pop_nat_lt l (i : nat) s x :
  deref s l !! i = Some x ->
  list_pop l (Z.of_nat i) s = (Ok x, <[l := delete i (deref s l)]> s).
Proof.
  intros Hx. pose proof (lookup_lt_Some _ _ _ Hx) as Hi. unfold list_pop.
  assert ((Z.of_nat i <? 0) = false) as H0 by (apply Z.ltb_ge; lia).
  assert ((Z.of_nat (length (deref s l)) <=? Z.of_nat i) = false) as H1
    by (apply Z.leb_gt; lia).
  cbv zeta. rewrite H0. cbv iota. rewrite H0, H1. cbn [orb].
  rewrite Nat2Z.id, Hx. reflexivity.
Qed.

(** A negative index counts from the end of the list. *)
Lemma list_pop_last l s xs x :
  deref s l = xs ++ [x] ->
  list_pop l (-1) s = (Ok x, <[l := xs]> s).
Proof.
  intros E. unfold list_pop. rewrite E. cbv zeta.
  change (-1 <? 0) with true. cbv iota.
  replace (-1 + Z.of_nat (length (xs ++ [x]))) with (Z.of_nat (length xs))
    by (rewrite length_app; simpl; lia).
  assert ((Z.of_nat (length xs) <? 0) = false) as H0 by (apply Z.ltb_ge; lia).
  assert ((Z.of_nat (length (xs ++ [x])) <=? Z.of_nat (length xs)) = false)
    as H1 by (apply Z.leb_gt; rewrite length_app; simpl; lia).
  rewrite H0, H1. cbn [orb]. rewrite Nat2Z.id.
  rewrite lookup_app_r by lia. rewrite Nat.sub_diag. cbn [lookup list_lookup].
  do 2 f_equal.
  rewrite delete_middle. by rewrite app_nil_r.
Qed.

End Store.

(** ** Adding a load *)

Section AddLoad.

Implicit Types (s : store) (c : SolarDemandCalculator).

(** A new calculator on the empty store. *)
Lemma init_empty v :
  __init__ v ∅ =
    (Ok {| system_voltage := v; loads := 1%positive |},
     {[ 1%positive := [] ]}).
Proof. reflexivity. Qed.

End AddLoad.

(** ** The class called with any numbers *)

Section DirectCalls.

Implicit Types (c : SolarDemandCalculator) (p q h : pynum).

Lemma direct_deref_insert_eq (s : Direct.store) l xs :
  Direct.deref (<[l := xs]> s) l = xs.
Proof. unfold Direct.deref. by rewrite lookup_insert_eq. Qed.

Lemma direct_deref_insert_ne (s : Direct.store) l l' xs :
  l ≠ l' -> Direct.deref (<[l := xs]> s) l' = Direct.deref s l'.
Proof. intros Hne. unfold Direct.deref. by rewrite lookup_insert_ne. Qed.

(** The conversion of an int is the only operation of a product that can
    raise. *)
Lemma float_of_int_raises z ex :
  float_of_int z = Raise ex -> ex = OverflowError.
Proof. unfold float_of_int. destruct (is_inf _); congruence. Qed.

Lemma py_mul_raises x y ex : py_mul x y = Raise ex -> ex = OverflowError.
Proof.
  destruct x as [a | f], y as [b | g]; cbn [py_mul]; try discriminate.
  - destruct (float_of_int a) eqn:E; cbn [bind]; [discriminate |].
    intros [= <-]. by apply float_of_int_raises in E.
  - destruct (float_of_int b) eqn:E; cbn [bind]; [discriminate |].
    intros [= <-]. by apply float_of_int_raises in E.
Qed.

Lemma daily_energy_raises p q h ex :
  Direct.daily_energy p q h = Raise ex -> ex = OverflowError.
Proof.
  unfold Direct.daily_energy.
  destruct (py_mul p q) as [pq | ex'] eqn:E; cbn [bind].
  - apply py_mul_raises.
  - intros [= <-]. by apply py_mul_raises in E.
Qed.

(** A product of three ints is an int, and exact. *)
Lemma daily_energy_ints (a b k : Z) :
  Direct.daily_energy (PInt a) (PInt b) (PInt k) = Ok (PInt (a * b * k)).
Proof. reflexivity. Qed.

Lemma direct_add_load_ok c d p q h e (s : Direct.store) :
  Direct.daily_energy p q h = Ok e ->
  Direct.add_load c d p q h s
  = (Ok VNone,
     <[loads c :=
         Direct.deref s (loads c) ++ [Direct.make_load d p q h e]]> s).
Proof. intros E. unfold Direct.add_load. by rewrite E. Qed.

Lemma direct_add_load_raise c d p q h ex (s : Direct.store) :
  Direct.daily_energy p q h = Raise ex ->
  Direct.add_load c d p q h s = (Raise ex, s).
Proof. intros E. unfold Direct.add_load. by rewrite E. Qed.

(** On ints the registry of numbers does what the registry of ints does. *)
Lemma numbers_deref (s : store) l :
  Direct.deref (numbers_store s) l = map as_numbers (deref s l).
Proof.
  unfold Direct.deref, deref, numbers_store. rewrite lookup_fmap.
  by destruct (s !! l).
Qed.

Lemma add_load_on_ints c d (a b k : Z) (s : store) :
  Direct.add_load c d (PInt a) (PInt b) (PInt k) (numbers_store s)
  = ((add_load c d a b k s).1, numbers_store (add_load c d a b k s).2).
Proof.
  rewrite add_load_eq. cbn [fst snd].
  rewrite (direct_add_load_ok c d _ _ _ _ _ (daily_energy_ints a b k)).
  unfold numbers_store at 3. rewrite fmap_insert. fold (numbers_store s).
  by rewrite numbers_deref, map_app.
Qed.

(** C1, as the code has it: [add_load] tests none of its arguments and
    raises no validation error. For a description and three numbers (ints
    or floats) of any value (an empty description, a power or quantity of
    zero or less or not an integer, hours outside 0..24 included), either
    the product [power_w * quantity * hours_per_day] has a value, and then
    the call returns normally with the load appended at the end of the
    collection and every other list untouched; or the product raises, which
    it does with [OverflowError] only, and then the call raises it and the
    store, the collection with it, is as it was before the call. With three
    ints the product always has a value. *)
Theorem add_load_unchecked_and_atomic c (s : Direct.store) d p q h :
  ((exists e s',
      Direct.daily_energy p q h = Ok e /\
      Direct.add_load c d p q h s = (Ok VNone, s') /\
      Direct.deref s' (loads c)
        = Direct.deref s (loads c) ++ [Direct.make_load d p q h e] /\
      forall l, l ≠ loads c -> s' !! l = s !! l)
   \/
   (Direct.daily_energy p q h = Raise OverflowError /\
    Direct.add_load c d p q h s = (Raise OverflowError, s))) /\
  (forall a b k : Z,
     Direct.daily_energy (PInt a) (PInt b) (PInt k) = Ok (PInt (a * b * k))).
Proof.
  split; [| intros a b k; apply daily_energy_ints].
  destruct (Direct.daily_energy p q h) as [e | ex] eqn:E.
  - left. eexists e, _. split; [reflexivity |].
    split; [by apply direct_add_load_ok |].
    split; [apply direct_deref_insert_eq |].
    intros l Hl. by rewrite lookup_insert_ne.
  - right. pose proof (daily_energy_raises p q h ex E) as ->.
    split; [reflexivity |]. by apply direct_add_load_raise.
Qed.

(** The failing case of [add_load_unchecked_and_atomic] is met: with a
    power of [10 ^ 400] W, quantity 1 and half an hour, the conversion of
    the int raises and the collection keeps its one load. *)
Lemma add_load_unchecked_and_atomic_witness :
  let c := {| system_voltage := 48; loads := 1%positive |} in
  let s : Direct.store :=
    {[ 1%positive :=
         [Direct.make_load "LED Light" (PInt 20) (PInt 15) (PInt 10)
            (PInt 3000)] ]} in
  Direct.add_load c "Furnace" (PInt (10 ^ 400)) (PInt 1)
    (PFloat (float_lit 5 10)) s
  = (Raise OverflowError, s).
Proof.
  intros c s.
  destruct (add_load_unchecked_and_atomic c s "Furnace" (PInt (10 ^ 400))
              (PInt 1) (PFloat (float_lit 5 10)))
    as [[(e & s' & E & _) | [_ H]] _].
  - vm_compute in E. discriminate.
  - exact H.
Defined.

(** C1 fails on the code: with an empty description, power 0, quantity 0
    and 25 hours the call on a new calculator returns normally and the
    collection has grown by the invalid load. *)
Lemma add_load_accepts_invalid_input :
  let '(c, s) := Direct.init 48 in
  (Direct.add_load c "" (PInt 0) (PInt 0) (PInt 25) s).1 = Ok VNone /\
  Direct.deref s (loads c) = [] /\
  Direct.deref (Direct.add_load c "" (PInt 0) (PInt 0) (PInt 25) s).2
    (loads c)
  = [Direct.make_load "" (PInt 0) (PInt 0) (PInt 25) (PInt 0)].
Proof. repeat split. Qed.

(** C9, as the code has it: a call of [add_load] that returns has put
    the new load at the end of the collection, at the index that was the
    length before the call, has left the earlier entries where they were,
    and has returned [None], not that index. A call with three ints always
    returns. *)
Theorem successful_add_appends_returns_none c (s : Direct.store) d p q h :
  (forall r s',
     Direct.add_load c d p q h s = (Ok r, s') ->
     r = VNone /\
     exists e,
       Direct.daily_energy p q h = Ok e /\
       length (Direct.deref s' (loads c))
         = S (length (Direct.deref s (loads c))) /\
       Direct.deref s' (loads c) !! length (Direct.deref s (loads c))
         = Some (Direct.make_load d p q h e) /\
       forall i x, Direct.deref s (loads c) !! i = Some x ->
                   Direct.deref s' (loads c) !! i = Some x) /\
  (forall a b k : Z,
     exists s',
       Direct.add_load c d (PInt a) (PInt b) (PInt k) s = (Ok VNone, s')).
Proof.
  split.
  - intros r s'. unfold Direct.add_load.
    destruct (Direct.daily_energy p q h) as [e | ex]; [| discriminate].
    intros [= <- <-]. split; [reflexivity |]. exists e.
    split; [reflexivity |]. rewrite direct_deref_insert_eq.
    split; [rewrite length_app; simpl; lia |].
    split.
    + rewrite lookup_app_r by lia. by rewrite Nat.sub_diag.
    + intros i x Hx. by apply lookup_app_l_Some.
  - intros a b k. eexists.
    apply direct_add_load_ok, daily_energy_ints.
Qed.

(** A call with a float for the hours that returns: the load with 7.5 h
    goes to index 1 of a collection of one. *)
Lemma successful_add_appends_returns_none_witness :
  let c := {| system_voltage := 48; loads := 1%positive |} in
  let s : Direct.store :=
    {[ 1%positive :=
         [Direct.make_load "LED Light" (PInt 20) (PInt 15) (PInt 10)
            (PInt 3000)] ]} in
  let h := PFloat (float_lit 75 10) in
  exists e,
    Direct.daily_energy (PInt 150) (PInt 5) h = Ok e /\
    Direct.deref (Direct.add_load c "Computer" (PInt 150) (PInt 5) h s).2
      (loads c) !! 1%nat
    = Some (Direct.make_load "Computer" (PInt 150) (PInt 5) h e).
Proof.
  intros c s h.
  destruct (successful_add_appends_returns_none c s "Computer" (PInt 150)
              (PInt 5) h) as [H _].
  destruct (H VNone (Direct.add_load c "Computer" (PInt 150) (PInt 5) h s).2)
    as (_ & e & E & _ & Hx & _).
  - vm_compute. reflexivity.
  - exists e. split; [exact E | exact Hx].
Defined.

(** C9 fails on the code: the first [add_load] on a new calculator
    returns [None], not the index 0 of the entry it added. *)
Lemma add_load_returns_no_index :
  let '(c, s) := Direct.init 48 in
  length (Direct.deref s (loads c)) = 0%nat /\
  (Direct.add_load c "LED Light" (PInt 20) (PInt 15) (PInt 10) s).1
    = Ok VNone /\
  (Direct.add_load c "LED Light" (PInt 20) (PInt 15) (PInt 10) s).1
    ≠ Ok (VInt 0).
Proof. repeat split. discriminate. Qed.

End DirectCalls.


(** ** The demand of an empty registry *)

Section EmptyRegistry.

Implicit Types (s : store) (c : SolarDemandCalculator).

(** C6: with no loads in the registry, [calculate_demand] returns, and
    the four entries of its result are zero. *)
Theorem calculate_demand_empty c s :
  deref s (loads c) = [] ->
  exists d,
    calculate_demand c s = (Ok d, s) /\
    total_energy_wh d = 0 /\
    total_energy_kwh d = PInt 0 /\
    total_ah d = PInt 0 /\
    peak_power_w d = 0.
Proof.
  intros E. exists zero_demand. unfold calculate_demand. rewrite E.
  repeat split.
Qed.

Lemma calculate_demand_empty_witness :
  exists d,
    calculate_demand {| system_voltage := 48; loads := 1%positive |}
      {[ 1%positive := [] ]} = (Ok d, {[ 1%positive := [] ]}) /\
    total_energy_wh d = 0 /\
    total_energy_kwh d = PInt 0 /\
    total_ah d = PInt 0 /\
    peak_power_w d = 0.
Proof. apply calculate_demand_empty. reflexivity. Defined.

(** C10: on an empty collection the result does not depend on the
    voltage: it is the all-zero result for every voltage, zero included,
    where the division of the other branch would raise. *)
Theorem calculate_demand_empty_ignores_voltage v l s :
  deref s l = [] ->
  calculate_demand {| system_voltage := v; loads := l |} s
    = (Ok zero_demand, s) /\
  calculate_demand {| system_voltage := 0; loads := l |} s
    = (Ok zero_demand, s).
Proof.
  intros E. unfold calculate_demand. cbn [loads]. rewrite E. by split.
Qed.

Lemma calculate_demand_empty_ignores_voltage_witness :
  calculate_demand {| system_voltage := 230; loads := 1%positive |}
    {[ 1%positive := [] ]} = (Ok zero_demand, {[ 1%positive := [] ]}) /\
  calculate_demand {| system_voltage := 0; loads := 1%positive |}
    {[ 1%positive := [] ]} = (Ok zero_demand, {[ 1%positive := [] ]}).
Proof. apply calculate_demand_empty_ignores_voltage. reflexivity. Defined.

End EmptyRegistry.

(** ** Deleting a row *)

Section Delete.

Implicit Types (s : store) (ss : SessionState).

Lemma delete_button_eq i ss s :
  delete_button i ss s =
    match list_pop (loads (calculator ss)) (Z.of_nat i) s with
    | (Ok _, s') => (Ok (sync_loads ss), s')
    | (Raise e, s') => (Raise e, s')
    end.
Proof.
  unfold delete_button, mbind, M_bind, seq.
  by destruct (list_pop _ _ s) as [[x | e] s'].
Qed.



End Delete.

(** ** The cached energy of the stored loads *)

Section EnergyInvariant.

Implicit Types (s : store) (ss : SessionState).

Lemma make_load_consistent d p q h : energy_consistent (make_load d p q h).
Proof. reflexivity. Qed.

Lemma store_consistent_deref s l :
  store_consistent s -> Forall energy_consistent (deref s l).
Proof.
  intros Hs. unfold deref. destruct (s !! l) as [xs |] eqn:E; simpl.
  - exact (Hs l xs E).
  - constructor.
Qed.

Lemma store_consistent_insert s l xs :
  store_consistent s -> Forall energy_consistent xs ->
  store_consistent (<[l := xs]> s).
Proof. intros Hs Hxs. by apply map_Forall_insert_2. Qed.

Lemma list_pop_consistent l i s :
  store_consistent s -> store_consistent (list_pop l i s).2.
Proof.
  intros Hs. unfold list_pop. cbv zeta.
  destruct (_ || _); [exact Hs |].
  destruct (deref s l !! _); [| exact Hs]. simpl.
  apply store_consistent_insert; [exact Hs |].
  apply Forall_delete, store_consistent_deref, Hs.
Qed.

Lemma handle_consistent a ss s :
  store_consistent s -> store_consistent (handle a ss s).2.
Proof.
  intros Hs. destruct a as [d p q h | i |]; simpl.
  - apply store_consistent_insert; [exact Hs |].
    apply Forall_app. split; [by apply store_consistent_deref |].
    repeat constructor.
  - rewrite delete_button_eq.
    pose proof (list_pop_consistent (loads (calculator ss)) (Z.of_nat i) s Hs)
      as Hp.
    by destruct (list_pop _ _ s) as [[x | e] s'].
  - repeat (apply store_consistent_insert; [| constructor]). exact Hs.
Qed.

Lemma run_actions_consistent acts ss s :
  store_consistent s -> store_consistent (run_actions acts ss s).2.
Proof.
  revert ss s. induction acts as [| a rest IH]; intros ss s Hs; simpl.
  - exact Hs.
  - pose proof (handle_consistent a ss s Hs) as Ha.
    destruct (handle a ss s) as [[ss' | e] s']; apply IH, Ha.
Qed.

Lemma session_after_consistent v acts :
  store_consistent (session_after v acts).2.
Proof.
  unfold session_after.
  change (new_session v ∅) with
    (Ok {| calculator := {| system_voltage := v; loads := 1%positive |};
           ss_loads := fresh (dom ({[ 1%positive := [] ]} : store)) |},
     <[fresh (dom ({[ 1%positive := [] ]} : store)) := []]>
       ({[ 1%positive := [] ]} : store)).
  apply run_actions_consistent.
  apply store_consistent_insert; [| constructor].
  apply map_Forall_singleton. constructor.
Qed.

(** In the sessions of the handlers, whose loads are made of ints, the
    cached energy of each load of the collection is the product of its
    three other numbers. *)
Lemma session_energy_consistent v acts :
  Forall (fun load =>
            daily_energy_wh load
              = power_w load * quantity load * hours_per_day load)
    (deref (session_after v acts).2
       (loads (calculator (session_after v acts).1))).
Proof. apply store_consistent_deref, session_after_consistent. Qed.

End EnergyInvariant.

(** ** The cached energy, for any numbers *)

Section DirectEnergy.

Implicit Types (s : Direct.store) (c : SolarDemandCalculator).

Lemma energy_store_deref s l :
  Direct.store_energy_is_product s ->
  Forall Direct.energy_is_product (Direct.deref s l).
Proof.
  intros Hs. unfold Direct.deref. destruct (s !! l) as [xs |] eqn:E; simpl.
  - exact (Hs l xs E).
  - constructor.
Qed.

Lemma energy_store_insert s l xs :
  Direct.store_energy_is_product s ->
  Forall Direct.energy_is_product xs ->
  Direct.store_energy_is_product (<[l := xs]> s).
Proof. intros Hs Hxs. by apply map_Forall_insert_2. Qed.

Lemma add_load_energy c d p q h s :
  Direct.store_energy_is_product s ->
  Direct.store_energy_is_product (Direct.add_load c d p q h s).2.
Proof.
  intros Hs. unfold Direct.add_load.
  destruct (Direct.daily_energy p q h) as [e | ex] eqn:E; [| exact Hs].
  apply energy_store_insert; [exact Hs |].
  apply Forall_app. split; [by apply energy_store_deref |].
  constructor; [exact E | constructor].
Qed.

Lemma pop_energy c i s :
  Direct.store_energy_is_product s ->
  Direct.store_energy_is_product (Direct.pop c i s).2.
Proof.
  intros Hs. unfold Direct.pop. cbv zeta.
  destruct (_ || _); [exact Hs |].
  destruct (Direct.deref s (loads c) !! _); [| exact Hs]. simpl.
  apply energy_store_insert; [exact Hs |].
  apply Forall_delete, energy_store_deref, Hs.
Qed.

Lemma apply_energy o c s :
  Direct.store_energy_is_product s ->
  Direct.store_energy_is_product (Direct.apply o c s).2.
Proof.
  intros Hs. destruct o as [d p q h | i |]; cbn [Direct.apply snd].
  - by apply add_load_energy.
  - by apply pop_energy.
  - apply energy_store_insert; [exact Hs | constructor].
Qed.

Lemma run_energy ops : forall c s,
  Direct.store_energy_is_product s ->
  Direct.store_energy_is_product (Direct.run ops c s).2.
Proof.
  induction ops as [| o rest IH]; intros c s Hs; simpl.
  - exact Hs.
  - pose proof (apply_energy o c s Hs) as Ho.
    destruct (Direct.apply o c s) as [c' s']. by apply IH.
Qed.

Lemma after_energy v ops :
  Direct.store_energy_is_product (Direct.after v ops).2.
Proof.
  unfold Direct.after, Direct.init. apply run_energy.
  apply energy_store_insert; [| constructor].
  apply map_Forall_empty.
Qed.

(** C5, as the code has it: after every sequence of additions, removals
    and clearings, from a new calculator at any voltage, the stored
    [daily_energy_wh] of each load of the collection is the value that
    Python's [power_w * quantity * hours_per_day] has on the three stored
    numbers; it was written once, by [add_load], and no operation assigns
    to it. When the three are ints it is their exact product; with a float
    among them it is the rounded product of floating-point arithmetic. *)
Theorem stored_energy_is_computed_product v ops :
  Forall (fun load =>
            Direct.daily_energy (Direct.power_w load) (Direct.quantity load)
              (Direct.hours_per_day load)
            = Ok (Direct.daily_energy_wh load) /\
            match Direct.power_w load, Direct.quantity load,
                  Direct.hours_per_day load with
            | PInt a, PInt b, PInt k =>
                Direct.daily_energy_wh load = PInt (a * b * k) /\
                Direct.energy_exact load = true
            | _, _, _ => True
            end)
    (Direct.deref (Direct.after v ops).2 (loads (Direct.after v ops).1)).
Proof.
  eapply Forall_impl;
    [apply energy_store_deref, after_energy |].
  intros [d p q h e] Hl. unfold Direct.energy_is_product in Hl.
  cbn [Direct.power_w Direct.quantity Direct.hours_per_day
       Direct.daily_energy_wh] in *.
  split; [exact Hl |].
  destruct p as [a |], q as [b |], h as [k |]; try exact I.
  rewrite daily_energy_ints in Hl. injection Hl as <-.
  split; [reflexivity |].
  unfold Direct.energy_exact, Direct.exact_eqb, Direct.exact_mul.
  cbn. rewrite Z.sub_diag. apply Z.eqb_refl.
Qed.

(** C5 fails on the code: a load of 3 W, quantity 1, for [0.1] h is
    stored with the energy [0.30000000000000004], which is not the product
    of the three stored numbers; and with hours that are not a number the
    stored energy is not even [==] to itself. *)
Lemma float_hours_energy_is_rounded :
  let tenth := PFloat (float_lit 1 10) in
  let '(c, s) :=
    Direct.after 48 [Direct.Add "Heater" (PInt 3) (PInt 1) tenth] in
  let '(c', s') :=
    Direct.after 48 [Direct.Add "Heater" (PInt 3) (PInt 1) (PFloat S754_nan)]
  in
  (exists load,
     Direct.deref s (loads c) = [load] /\
     Direct.power_w load = PInt 3 /\
     Direct.quantity load = PInt 1 /\
     Direct.hours_per_day load = tenth /\
     Direct.daily_energy_wh load
       = PFloat (float_lit 30000000000000004 100000000000000000) /\
     Direct.energy_exact load = false) /\
  (exists load,
     Direct.deref s' (loads c') = [load] /\
     py_eq (Direct.daily_energy_wh load) (Direct.daily_energy_wh load)
       = false).
Proof.
  split; eexists; repeat split; vm_compute; reflexivity.
Qed.

End DirectEnergy.

(** ** The system voltage *)

Section Voltage.

Implicit Types (s : store) (ss : SessionState).

Lemma int_truediv_zero_division a b :
  int_truediv a b = Raise ZeroDivisionError -> b = 0.
Proof.
  unfold int_truediv. destruct (b =? 0) eqn:E.
  - intros _. by apply Z.eqb_eq.
  - destruct (is_inf _); discriminate.
Qed.

(** The division by the voltage is the only one that can be by zero. *)
Lemma calculate_demand_zero_division (c : SolarDemandCalculator) s :
  (calculate_demand c s).1 = Raise ZeroDivisionError ->
  system_voltage c = 0.
Proof.
  unfold calculate_demand.
  destruct (deref s (loads c)) as [| x xs]; [discriminate |]. cbv zeta.
  cbn [fst].
  destruct (int_truediv _ 1000) as [kwh | e] eqn:E1; cbn [bind].
  - destruct (int_truediv _ (system_voltage c)) as [ah | e] eqn:E2;
      cbn [bind]; [discriminate |].
    intros [= ->]. by apply int_truediv_zero_division in E2.
  - intros [= ->]. by apply int_truediv_zero_division in E1.
Qed.

Lemma handle_voltage a ss s :
  match (handle a ss s).1 with
  | Ok ss' => system_voltage (calculator ss') = system_voltage (calculator ss)
  | Raise _ => True
  end.
Proof.
  destruct a as [d p q h | i |]; simpl; try reflexivity.
  rewrite delete_button_eq.
  by destruct (list_pop _ _ s) as [[x | e] s'].
Qed.

Lemma run_actions_voltage acts ss s :
  system_voltage (calculator (run_actions acts ss s).1)
    = system_voltage (calculator ss).
Proof.
  revert ss s. induction acts as [| a rest IH]; intros ss s; simpl.
  - reflexivity.
  - pose proof (handle_voltage a ss s) as Ha.
    destruct (handle a ss s) as [[ss' | e] s']; simpl in Ha; rewrite IH.
    + exact Ha.
    + reflexivity.
Qed.

Lemma session_after_voltage v acts :
  system_voltage (calculator (session_after v acts).1) = v.
Proof. unfold session_after. simpl. by rewrite run_actions_voltage. Qed.

(** C2, as the code has it: the constructor stores whatever voltage it
    is given and rejects none; in every state reached from a calculator
    built with a voltage other than zero (the default 48 of the
    application among them), [calculate_demand] does not raise
    [ZeroDivisionError]. *)
Theorem nonzero_voltage_never_divides_by_zero v acts s0 :
  (exists c s', __init__ v s0 = (Ok c, s') /\ system_voltage c = v) /\
  system_voltage (calculator (session_after v acts).1) = v /\
  (v ≠ 0 ->
   (calculate_demand (calculator (session_after v acts).1)
      (session_after v acts).2).1 ≠ Raise ZeroDivisionError).
Proof.
  split; [by eexists _, _ |].
  split; [apply session_after_voltage |].
  intros Hv H. apply calculate_demand_zero_division in H.
  by rewrite session_after_voltage in H.
Qed.

Lemma nonzero_voltage_never_divides_by_zero_witness :
  (calculate_demand
     (calculator
        (session_after 48 [Add "LED Light" 20 15 10; Delete 0;
                           Add "AC Unit" 1500 1 6]).1)
     (session_after 48 [Add "LED Light" 20 15 10; Delete 0;
                        Add "AC Unit" 1500 1 6]).2).1
    ≠ Raise ZeroDivisionError.
Proof.
  apply (proj2 (proj2 (nonzero_voltage_never_divides_by_zero 48
           [Add "LED Light" 20 15 10; Delete 0; Add "AC Unit" 1500 1 6] ∅))).
  lia.
Defined.

(** C2 fails on the code: a calculator is built with voltage 0, and with
    one load in it the demand query raises [ZeroDivisionError]. *)
Lemma zero_voltage_divides_by_zero :
  (__init__ 0 ∅).1 = Ok {| system_voltage := 0; loads := 1%positive |} /\
  (calculate_demand
     (calculator (session_after 0 [Add "LED Light" 20 15 10]).1)
     (session_after 0 [Add "LED Light" 20 15 10]).2).1
    = Raise ZeroDivisionError.
Proof. split; reflexivity. Qed.

End Voltage.

(** ** Reading the collection *)

Section Aliasing.

Implicit Types (s : store) (ss : SessionState).

Lemma add_load_button_eq d p q h ss s :
  add_load_button d p q h ss s =
    (Ok (sync_loads ss),
     <[loads (calculator ss) :=
         deref s (loads (calculator ss)) ++ [make_load d p q h]]> s).
Proof. reflexivity. Qed.

Lemma run_actions_adds items ss s :
  deref (run_actions (map add_of items) ss s).2
    (loads (calculator (run_actions (map add_of items) ss s).1))
  = deref s (loads (calculator ss)) ++ map load_of items.
Proof.
  revert ss s. induction items as [| [[[d p] q] h] rest IH]; intros ss s.
  - simpl. by rewrite app_nil_r.
  - cbn [map add_of run_actions handle]. rewrite add_load_button_eq, IH.
    cbn [sync_loads calculator load_of map]. rewrite deref_insert_eq.
    by rewrite <- app_assoc.
Qed.

(** C8, as the code has it: reading [calculator.loads] gives the loads in
    the order of their insertion, and what it gives is the calculator's
    own list object, not a copy: after a mutation [f] of the returned
    list, the calculator's collection is [f] of what it was, and the name
    [session_state.loads] that the "Add Load" handler sets is this same
    object. *)
Theorem loads_is_live_alias v items ss c s f :
  deref (session_after v (map add_of items)).2
    (get_loads (calculator (session_after v (map add_of items)).1))
    = map load_of items /\
  ss_loads (sync_loads ss) = loads (calculator ss) /\
  get_loads c = loads c /\
  deref (list_mutate (get_loads c) f s) (loads c) = f (deref s (loads c)).
Proof.
  split.
  - unfold session_after, get_loads. simpl. by rewrite run_actions_adds.
  - split; [reflexivity |]. split; [reflexivity |]. apply deref_insert_eq.
Qed.

(** C8 fails on the code: popping the one entry of the list returned by
    the read empties the calculator's collection, and the demand computed
    afterwards differs from the one computed before. *)
Lemma mutating_returned_loads_changes_registry :
  let st := session_after 48 [Add "LED Light" 20 15 10] in
  let returned := get_loads (calculator st.1) in
  let s' := (list_pop returned 0 st.2).2 in
  deref st.2 (loads (calculator st.1)) = [make_load "LED Light" 20 15 10] /\
  deref s' (loads (calculator st.1)) = [] /\
  (calculate_demand (calculator st.1) s').1 = Ok zero_demand /\
  (calculate_demand (calculator st.1) st.2).1 ≠ Ok zero_demand.
Proof. repeat split. vm_compute. discriminate. Qed.

End Aliasing.

(** ** The small-office scenario *)

Section Scenario.

(** C4, as the code has it: the three loads at 48 V give 18000 Wh,
    18 kWh, a peak of 2550 W and 375 Ah; a PV size of 4.0 kW and a
    battery of 36 kWh; equipment 26400, installation 7920, total 34320.
    The inverter rating [2550/1000 * 1.2] is the double
    3.0599999999999996, the one just below the double 3.06. *)
Theorem small_office_scenario :
  exists d pv bat inv equip ins tot,
    (scenario ∅).1 = Ok d /\
    total_energy_wh d = 18000 /\
    py_eq (total_energy_kwh d) (PInt 18) = true /\
    peak_power_w d = 2550 /\
    py_eq (total_ah d) (PInt 375) = true /\
    pv_size d = Ok pv /\
    py_eq pv (PFloat (float_lit 40 10)) = true /\
    battery_capacity_kwh d = Ok bat /\
    py_eq bat (PInt 36) = true /\
    inverter_kw d = Ok (PFloat inv) /\
    inv = inverter_kw_scenario /\
    SFsucc prec emax inv = float_lit 306 100 /\
    equipment_cost d = Ok equip /\
    py_eq equip (PInt 26400) = true /\
    installation_cost d = Ok ins /\
    py_eq ins (PInt 7920) = true /\
    total_cost d = Ok tot /\
    py_eq tot (PInt 34320) = true.
Proof.
  do 7 eexists. repeat split; vm_compute; reflexivity.
Qed.

(** The "Small Office Setup" button of [main], pressed in a new session,
    leaves a registry with the demand of the scenario: the descriptions of
    its loads differ, the figures do not. *)
Lemma small_office_button_demand :
  ((ss ← init_session;
    ss' ← small_office_button ss;
    calculate_demand (calculator ss')) ∅).1 = (scenario ∅).1.
Proof. vm_compute. reflexivity. Qed.

(** C4 fails on the code: the inverter rating of the scenario is not
    equal to 3.06. *)
Lemma inverter_kw_is_not_3_06 :
  exists d inv,
    (scenario ∅).1 = Ok d /\
    inverter_kw d = Ok inv /\
    py_eq inv (PFloat (float_lit 306 100)) = false.
Proof. do 2 eexists. repeat split; vm_compute; reflexivity. Qed.

End Scenario.

(** ** The range of the quotients *)

Section FloatRange.

(** The number of binary digits of a number bounds it. *)
Lemma digits2_pos_bounds p :
  2 ^ (Zpos (digits2_pos p) - 1) <= Zpos p < 2 ^ Zpos (digits2_pos p).
Proof.
  induction p as [p IH | p IH |]; cbn [digits2_pos].
  - rewrite Pos2Z.inj_succ, (Pos2Z.inj_xI p).
    replace (Z.succ (Zpos (digits2_pos p)) - 1)
      with (Z.succ (Zpos (digits2_pos p) - 1)) by lia.
    rewrite !Z.pow_succ_r by lia. lia.
  - rewrite Pos2Z.inj_succ, (Pos2Z.inj_xO p).
    replace (Z.succ (Zpos (digits2_pos p)) - 1)
      with (Z.succ (Zpos (digits2_pos p) - 1)) by lia.
    rewrite !Z.pow_succ_r by lia. lia.
  - simpl. lia.
Qed.

Lemma Zdigits2_nonneg m : 0 <= Zdigits2 m.
Proof. destruct m; simpl; lia. Qed.

Lemma Zdigits2_gt m : 0 <= m -> m < 2 ^ Zdigits2 m.
Proof.
  destruct m as [| p | p]; intros Hm; simpl; [lia | | lia].
  apply digits2_pos_bounds.
Qed.

Lemma Zdigits2_le m k : 0 <= m -> 0 <= k -> m < 2 ^ k -> Zdigits2 m <= k.
Proof.
  destruct m as [| p | p]; intros Hm Hk Hlt; simpl; [lia | | lia].
  pose proof (digits2_pos_bounds p) as [Hlo _].
  assert (2 ^ (Zpos (digits2_pos p) - 1) < 2 ^ k) as Hp by lia.
  apply Z.pow_lt_mono_r_iff in Hp; lia.
Qed.

(** Shifting a mantissa to the right halves it. *)
Lemma shr_1_m mrs :
  0 <= shr_m mrs ->
  0 <= shr_m (shr_1 mrs) /\ 2 * shr_m (shr_1 mrs) <= shr_m mrs.
Proof.
  destruct mrs as [m r s]. destruct m as [| [p | p |] | p]; simpl; lia.
Qed.

Lemma iter_shr_1_m p : forall mrs,
  0 <= shr_m mrs ->
  0 <= shr_m (SpecFloat.iter_pos shr_1 p mrs) /\
  2 ^ Zpos p * shr_m (SpecFloat.iter_pos shr_1 p mrs) <= shr_m mrs.
Proof.
  induction p as [p IH | p IH |]; intros mrs Hm; cbn [SpecFloat.iter_pos].
  - destruct (shr_1_m mrs Hm) as [H1 H1'].
    destruct (IH _ H1) as [H2 H2'].
    destruct (IH _ H2) as [H3 H3'].
    split; [exact H3 |].
    rewrite (Pos2Z.inj_xI p).
    replace (2 * Zpos p + 1) with (Z.succ (Zpos p + Zpos p)) by lia.
    rewrite Z.pow_succ_r, Z.pow_add_r by lia.
    assert (0 < 2 ^ Zpos p) by (apply Z.pow_pos_nonneg; lia). nia.
  - destruct (IH _ Hm) as [H2 H2'].
    destruct (IH _ H2) as [H3 H3'].
    split; [exact H3 |].
    rewrite (Pos2Z.inj_xO p).
    replace (2 * Zpos p) with (Zpos p + Zpos p) by lia.
    rewrite Z.pow_add_r by lia.
    assert (0 < 2 ^ Zpos p) by (apply Z.pow_pos_nonneg; lia). nia.
  - change (2 ^ 1) with 2. apply shr_1_m, Hm.
Qed.

Lemma shr_m_of_loc m l : shr_m (shr_record_of_loc m l) = m.
Proof. by destruct l as [| []]. Qed.

Lemma round_nearest_even_bounds m l :
  m <= round_nearest_even m l <= m + 1.
Proof.
  destruct l as [| []]; simpl; try destruct (Z.even m); lia.
Qed.

(** What [shr_fexp] leaves: the exponent it chooses, a mantissa that is
    not negative, and no more digits above the binary point than before
    unless the exponent itself is above them. *)
Lemma shr_fexp_bounds m e l :
  0 <= m ->
  (shr_fexp prec emax m e l).2
    = Z.max e (fexp prec emax (Zdigits2 m + e)) /\
  0 <= shr_m (shr_fexp prec emax m e l).1 /\
  Zdigits2 (shr_m (shr_fexp prec emax m e l).1) + (shr_fexp prec emax m e l).2
    <= Z.max (Zdigits2 m + e) (shr_fexp prec emax m e l).2.
Proof.
  intros Hm. unfold shr_fexp, shr.
  destruct (fexp prec emax (Zdigits2 m + e) - e) as [| p | p] eqn:En;
    cbn [fst snd].
  - rewrite shr_m_of_loc. lia.
  - destruct (iter_shr_1_m p (shr_record_of_loc m l)) as [H1 H2];
      [by rewrite shr_m_of_loc |].
    rewrite shr_m_of_loc in H2.
    set (m1 := shr_m (SpecFloat.iter_pos shr_1 p (shr_record_of_loc m l))) in *.
    split; [lia |]. split; [exact H1 |].
    pose proof (Zdigits2_gt m Hm) as Hd.
    pose proof (Zdigits2_nonneg m) as Hn.
    destruct (Z_lt_le_dec (Zdigits2 m) (Zpos p)) as [Hlt | Hge].
    + assert (2 ^ Zdigits2 m <= 2 ^ Zpos p)
        by (apply Z.pow_le_mono_r; lia).
      assert (m1 = 0) as -> by nia. simpl. lia.
    + assert (Zdigits2 m1 <= Zdigits2 m - Zpos p); [| lia].
      apply Zdigits2_le; [exact H1 | lia |].
      replace (Zdigits2 m) with (Zpos p + (Zdigits2 m - Zpos p)) in Hd
        by lia.
      rewrite Z.pow_add_r in Hd by lia.
      assert (0 < 2 ^ Zpos p) by (apply Z.pow_pos_nonneg; lia). nia.
  - rewrite shr_m_of_loc. lia.
Qed.

(** Rounding a number below [2 ^ 1023] gives a zero or a finite double:
    the exponent stays at or below [emax - prec]. *)
Lemma binary_round_aux_in_range sx m e l :
  0 <= m -> Zdigits2 m + e <= 1023 -> e <= 970 ->
  is_finite (binary_round_aux prec emax sx m e l) = true.
Proof.
  intros Hm Hd He. unfold binary_round_aux.
  pose proof (shr_fexp_bounds m e l Hm) as (E1 & N1 & D1).
  destruct (shr_fexp prec emax m e l) as [mrs' e']. cbn [fst snd] in *.
  set (m1r := round_nearest_even (shr_m mrs') (loc_of_shr_record mrs')).
  pose proof (round_nearest_even_bounds (shr_m mrs')
                (loc_of_shr_record mrs')) as Hr. fold m1r in Hr.
  assert (0 <= m1r) as Hm1r by lia.
  pose proof (shr_fexp_bounds m1r e' loc_Exact Hm1r) as (E2 & N2 & _).
  destruct (shr_fexp prec emax m1r e' loc_Exact) as [mrs'' e''].
  cbn [fst snd] in *.
  assert (Zdigits2 m1r <= Zdigits2 (shr_m mrs') + 1) as Hd1.
  { pose proof (Zdigits2_nonneg (shr_m mrs')).
    pose proof (Zdigits2_gt (shr_m mrs') N1).
    apply Zdigits2_le; [lia | lia |].
    rewrite Z.pow_add_r by lia. change (2 ^ 1) with 2. lia. }
  unfold fexp, emin, prec, emax in *.
  destruct (shr_m mrs'') as [| q | q]; [reflexivity | | lia].
  replace (e'' <=? 1024 - 53) with true; [reflexivity |].
  symmetry. apply Z.leb_le. lia.
Qed.

(** The quotient of two positive integers, before rounding. *)
Lemma SFdiv_core_binary_bounds pa pb :
  0 <= (SFdiv_core_binary prec emax (Zpos pa) 0 (Zpos pb) 0).1.1 /\
  (SFdiv_core_binary prec emax (Zpos pa) 0 (Zpos pb) 0).1.2 <= 0 /\
  Zdigits2 (SFdiv_core_binary prec emax (Zpos pa) 0 (Zpos pb) 0).1.1
    + (SFdiv_core_binary prec emax (Zpos pa) 0 (Zpos pb) 0).1.2
    <= Zpos (digits2_pos pa).
Proof.
  unfold SFdiv_core_binary. cbv zeta.
  set (e' := Z.min _ (0 - 0)).
  assert (e' <= 0) as He' by (subst e'; lia).
  pose proof (digits2_pos_bounds pa) as [_ Hpa].
  destruct (0 - 0 - e') as [| s | s] eqn:Es.
  - pose proof (Z_div_mod (Zpos pa) (Zpos pb) eq_refl) as Hq.
    destruct (Z.div_eucl (Zpos pa) (Zpos pb)) as [q r]. cbn [fst snd].
    destruct Hq as [Hq Hr].
    assert (0 <= q <= Zpos pa) as Hqb by nia.
    split; [lia |]. split; [lia |].
    assert (Zdigits2 q <= Zpos (digits2_pos pa)); [| lia].
    apply Zdigits2_le; lia.
  - pose proof (Z_div_mod (Z.shiftl (Zpos pa) (Zpos s)) (Zpos pb) eq_refl)
      as Hq.
    destruct (Z.div_eucl (Z.shiftl (Zpos pa) (Zpos s)) (Zpos pb)) as [q r].
    cbn [fst snd]. destruct Hq as [Hq Hr].
    rewrite Z.shiftl_mul_pow2 in Hq by lia.
    assert (0 < 2 ^ Zpos s) by (apply Z.pow_pos_nonneg; lia).
    assert (0 <= q <= Zpos pa * 2 ^ Zpos s) as Hqb by nia.
    split; [lia |]. split; [lia |].
    assert (Zdigits2 q <= Zpos (digits2_pos pa) + Zpos s); [| lia].
    apply Zdigits2_le; [lia | lia |].
    rewrite Z.pow_add_r by lia. nia.
  - lia.
Qed.

(** An integer below [2 ^ 1023] in absolute value divided by an integer
    other than zero: the division returns, a zero or a finite double. *)
Lemma int_truediv_in_range a b :
  b ≠ 0 -> Z.abs a < 2 ^ 1023 ->
  exists f, int_truediv a b = Ok f /\ is_finite f = true.
Proof.
  intros Hb Ha. unfold int_truediv.
  replace (b =? 0) with false by (symmetry; by apply Z.eqb_neq).
  assert (is_finite (SFdiv prec emax (exact_of_int a) (exact_of_int b))
            = true) as Hf.
  { destruct a as [| pa | pa], b as [| pb | pb]; try lia;
      cbn [exact_of_int SFdiv]; try reflexivity.
    all: pose proof (SFdiv_core_binary_bounds pa pb) as (H1 & H2 & H3).
    all: destruct (SFdiv_core_binary prec emax (Zpos pa) 0 (Zpos pb) 0)
           as [[mz ez] lz]; cbn [fst snd] in *.
    all: apply binary_round_aux_in_range; [lia | | lia].
    all: assert (Zpos (digits2_pos pa) <= 1023); [| lia].
    all: apply (Zdigits2_le (Zpos pa)); lia. }
  destruct (SFdiv prec emax (exact_of_int a) (exact_of_int b)) as [| | |];
    try discriminate; cbn [is_inf]; eauto.
Qed.

Lemma SFeqb_refl f : is_finite f = true -> SFeqb f f = true.
Proof.
  destruct f as [s | s | | s m e]; try discriminate; intros _.
  - reflexivity.
  - unfold SFeqb, SFcompare.
    rewrite Z.compare_refl, Pos.compare_cont_refl. by destruct s.
Qed.

End FloatRange.

(** ** The demand of a collection *)

Section Demand.

Implicit Types (s : store) (c : SolarDemandCalculator).

Lemma fold_left_add_total xs a : fold_left Z.add xs a = a + total xs.
Proof.
  revert a. induction xs as [| x xs IH]; intros a; simpl.
  - lia.
  - rewrite IH. lia.
Qed.

Lemma py_sum_total xs : py_sum xs = total xs.
Proof. unfold py_sum. by rewrite fold_left_add_total. Qed.

Lemma int_truediv_zero b : 0 < b -> int_truediv 0 b = Ok (S754_zero false).
Proof. by destruct b. Qed.

Lemma peak_of_loads (ls : list Load) :
  total (map (fun load => power_w load * quantity load) ls)
    = peak_of (map (fun load => (power_w load, quantity load)) ls).
Proof. unfold peak_of. by rewrite map_map. Qed.

(** C3, as the code has it: for a positive voltage and a total daily
    energy below [2 ^ 1023] in absolute value, [calculate_demand]
    returns; its total energy is the sum of the stored energies (0 for no
    loads), its peak the sum of power times quantity and a function of
    these two fields only, and its kWh and Ah entries are equal, as
    numbers, to the quotients of the total by 1000 and by the voltage. *)
Theorem calculate_demand_formulas c s :
  0 < system_voltage c ->
  Z.abs (total (map daily_energy_wh (deref s (loads c)))) < 2 ^ 1023 ->
  exists d kwh ah,
    calculate_demand c s = (Ok d, s) /\
    total_energy_wh d = total (map daily_energy_wh (deref s (loads c))) /\
    int_truediv (total_energy_wh d) 1000 = Ok kwh /\
    py_eq (total_energy_kwh d) (PFloat kwh) = true /\
    peak_power_w d
      = peak_of (map (fun load => (power_w load, quantity load))
                   (deref s (loads c))) /\
    int_truediv (total_energy_wh d) (system_voltage c) = Ok ah /\
    py_eq (total_ah d) (PFloat ah) = true.
Proof.
  intros Hv Hwh. unfold calculate_demand.
  destruct (deref s (loads c)) as [| x xs] eqn:E.
  - exists zero_demand, (S754_zero false), (S754_zero false).
    cbn [total_energy_wh zero_demand].
    rewrite !int_truediv_zero by lia. by repeat split.
  - cbv zeta. rewrite !py_sum_total, peak_of_loads.
    set (wh := total (map daily_energy_wh (x :: xs))) in *.
    destruct (int_truediv_in_range wh 1000) as (kwh & Ek & Fk);
      [lia | exact Hwh |].
    destruct (int_truediv_in_range wh (system_voltage c)) as (ah & Ea & Fa);
      [lia | exact Hwh |].
    rewrite Ek, Ea. cbn [bind].
    eexists _, kwh, ah. split; [reflexivity |].
    cbn [total_energy_wh total_energy_kwh total_ah peak_power_w py_eq].
    rewrite !SFeqb_refl by assumption. by repeat split.
Qed.

Lemma calculate_demand_formulas_witness :
  let c := {| system_voltage := 48; loads := 1%positive |} in
  let s : store :=
    {[ 1%positive := [make_load "LED Light" 20 15 10;
                      make_load "Computer" 150 5 8] ]} in
  exists d kwh ah,
    calculate_demand c s = (Ok d, s) /\
    total_energy_wh d = 9000 /\
    int_truediv (total_energy_wh d) 1000 = Ok kwh /\
    py_eq (total_energy_kwh d) (PFloat kwh) = true /\
    peak_power_w d = 1050 /\
    int_truediv (total_energy_wh d) 48 = Ok ah /\
    py_eq (total_ah d) (PFloat ah) = true.
Proof.
  intros c s. apply (calculate_demand_formulas c s).
  - simpl. lia.
  - vm_compute. reflexivity.
Defined.

(** C3 fails on the code: at 48 V, one load of [10 ^ 400] W for one hour
    makes the division by 1000 raise [OverflowError]. *)
Lemma huge_total_overflows :
  ((c ← __init__ 48;
    add_load c "Furnace" (10 ^ 400) 1 1;;
    calculate_demand c) ∅).1 = Raise OverflowError.
Proof. vm_compute. reflexivity. Qed.

End Demand.

(** ** The catalogue *)

Section Catalogue.

Lemma dict_get_keys {V} (d : list (string * V)) k :
  k ∈ dict_keys d <-> is_Some (dict_get d k).
Proof.
  unfold dict_keys. induction d as [| [k' v] rest IH]; simpl.
  - split; [intros H; inversion H | intros [x H]; discriminate].
  - rewrite elem_of_cons, IH.
    destruct (String.eqb_spec k k') as [-> | Hne].
    + split; [eauto | by left].
    + split; [by intros [? | ?] | by right].
Qed.

Lemma appliance_options_truthy name :
  name ∈ appliance_options -> truthy name = true.
Proof.
  unfold appliance_options, dict_keys. simpl. intros H.
  repeat (apply elem_of_cons in H as [-> | H]; [reflexivity |]).
  inversion H.
Qed.

(** Every option of the select box has an entry in the catalogue (the
    lookups of the form raise no [KeyError]), and the values the two number
    inputs start from, the entry's power and typical hours, lie within the
    bounds of the inputs: the form as it is first shown can be added. *)
Theorem catalogue_defaults_within_bounds name :
  name ∈ appliance_options ->
  exists a,
    dict_get COMMERCIAL_APPLIANCES name = Some a /\
    default_power name "" = Some (Appliance.power_w a) /\
    default_hours name "" = Some (Appliance.typical_hours a) /\
    in_bounds {| Form.appliance_name := name; Form.custom_name := "";
                 Form.power_w := Appliance.power_w a; Form.quantity := 1;
                 Form.hours_per_day := Appliance.typical_hours a |} = true.
Proof.
  unfold appliance_options, dict_keys. simpl. intros H.
  repeat (apply elem_of_cons in H as [-> | H];
          [eexists; repeat split; vm_compute; reflexivity |]).
  inversion H.
Qed.

Lemma catalogue_defaults_within_bounds_witness :
  exists a,
    dict_get COMMERCIAL_APPLIANCES "Water Pump" = Some a /\
    default_power "Water Pump" "" = Some (Appliance.power_w a) /\
    default_hours "Water Pump" "" = Some (Appliance.typical_hours a) /\
    in_bounds {| Form.appliance_name := "Water Pump"; Form.custom_name := "";
                 Form.power_w := Appliance.power_w a; Form.quantity := 1;
                 Form.hours_per_day := Appliance.typical_hours a |} = true.
Proof.
  apply (catalogue_defaults_within_bounds "Water Pump").
  vm_compute. repeat constructor.
Defined.

End Catalogue.

(** ** How the operations compose *)

Section Composition.

Implicit Types (s : store) (c : SolarDemandCalculator) (ss : SessionState).

Lemma total_app xs ys : total (xs ++ ys) = total xs + total ys.
Proof. induction xs as [| x xs IH]; simpl; lia. Qed.

(** The two integer entries of a demand, in both branches. *)
Lemma calculate_demand_sums c s d :
  (calculate_demand c s).1 = Ok d ->
  total_energy_wh d = total (map daily_energy_wh (deref s (loads c))) /\
  peak_power_w d
    = total (map (fun load => power_w load * quantity load)
               (deref s (loads c))).
Proof.
  unfold calculate_demand.
  destruct (deref s (loads c)) as [| x xs]; cbn [fst].
  - intros [= <-]. by split.
  - cbv zeta. rewrite !py_sum_total.
    destruct (int_truediv _ 1000) as [kwh | e]; cbn [bind];
      [| discriminate].
    destruct (int_truediv _ (system_voltage c)) as [ah | e]; cbn [bind];
      [| discriminate].
    intros [= <-]. by split.
Qed.

(** The float entries depend on the collection through its total only. *)
Lemma calculate_demand_store_irrelevant c s s' :
  deref s (loads c) = deref s' (loads c) ->
  (calculate_demand c s).1 = (calculate_demand c s').1.
Proof.
  intros E. unfold calculate_demand. rewrite E.
  by destruct (deref s' (loads c)).
Qed.

(** Pressing "Add Load" and then "Delete" on the new, last row gives back
    the collection and the demand as they were; no other list changes. *)
Theorem add_then_delete_last d p q h ss s :
  exists ss1 s1 ss2 s2,
    add_load_button d p q h ss s = (Ok ss1, s1) /\
    delete_button (length (deref s (loads (calculator ss)))) ss1 s1
      = (Ok ss2, s2) /\
    calculator ss2 = calculator ss /\
    deref s2 (loads (calculator ss2)) = deref s (loads (calculator ss)) /\
    (calculate_demand (calculator ss2) s2).1
      = (calculate_demand (calculator ss) s).1 /\
    forall l, l ≠ loads (calculator ss) -> s2 !! l = s !! l.
Proof.
  set (xs := deref s (loads (calculator ss))).
  set (s1 := <[loads (calculator ss) := xs ++ [make_load d p q h]]> s).
  assert (deref s1 (loads (calculator (sync_loads ss))) !! length xs
            = Some (make_load d p q h)) as Hx.
  { subst s1. cbn [sync_loads calculator]. rewrite deref_insert_eq.
    rewrite lookup_app_r by lia. by rewrite Nat.sub_diag. }
  exists (sync_loads ss), s1, (sync_loads (sync_loads ss)),
    (<[loads (calculator (sync_loads ss)) :=
         delete (length xs) (deref s1 (loads (calculator (sync_loads ss))))]>
       s1).
  split; [apply add_load_button_eq |].
  split; [by rewrite delete_button_eq, (list_pop_nat_lt _ _ _ _ Hx) |].
  split; [reflexivity |].
  assert (deref
            (<[loads (calculator (sync_loads ss)) :=
                 delete (length xs)
                   (deref s1 (loads (calculator (sync_loads ss))))]> s1)
            (loads (calculator ss)) = xs) as E.
  { cbn [sync_loads calculator]. rewrite deref_insert_eq. subst s1.
    rewrite deref_insert_eq, delete_middle. by rewrite app_nil_r. }
  split; [exact E |].
  split; [apply calculate_demand_store_irrelevant; exact E |].
  intros l Hl. cbn [sync_loads calculator]. subst s1.
  by rewrite !lookup_insert_ne.
Qed.

(** Sums of ints do not depend on the order of the summands. *)
Lemma total_map_permutation (f : Load -> Z) xs ys :
  xs ≡ₚ ys -> total (map f xs) = total (map f ys).
Proof.
  induction 1 as [| x xs ys _ IH | x y xs | xs ys zs _ IH1 _ IH2];
    simpl; lia.
Qed.

(** "Clear All Loads" gives each of the two names a new, empty list: the
    two are different objects, every list that existed is left as it was,
    the voltage is kept and the demand is the all-zero one; a later change
    of [session_state.loads] does not reach the calculator. *)
Theorem clear_button_fresh_lists ss s :
  exists ss' s',
    clear_button ss s = (Ok ss', s') /\
    system_voltage (calculator ss') = system_voltage (calculator ss) /\
    deref s' (loads (calculator ss')) = [] /\
    deref s' (ss_loads ss') = [] /\
    loads (calculator ss') ≠ ss_loads ss' /\
    (forall l, l ∈ dom s -> s' !! l = s !! l) /\
    calculate_demand (calculator ss') s' = (Ok zero_demand, s') /\
    forall f, deref (list_mutate (ss_loads ss') f s') (loads (calculator ss'))
              = [].
Proof.
  set (l1 := fresh (dom s)).
  set (s1 := <[l1 := []]> s).
  set (l2 := fresh (dom s1)).
  assert (l1 ≠ l2) as Hne.
  { intros E. pose proof (is_fresh (dom s1)) as Hf. fold l2 in Hf.
    apply Hf. rewrite <- E. subst s1. rewrite dom_insert. set_solver. }
  assert (deref (<[l2 := []]> s1) l1 = []) as E1.
  { rewrite deref_insert_ne by done. subst s1. apply deref_insert_eq. }
  exists {| calculator :=
              {| system_voltage := system_voltage (calculator ss);
                 loads := l1 |};
            ss_loads := l2 |}, (<[l2 := []]> s1).
  cbn [calculator ss_loads loads system_voltage].
  split; [reflexivity |]. split; [reflexivity |].
  split; [exact E1 |]. split; [apply deref_insert_eq |].
  split; [exact Hne |]. split.
  - intros l Hl.
    assert (l ≠ l1) as H1.
    { intros E. apply (is_fresh (dom s)). fold l1. by rewrite <- E. }
    assert (l ≠ l2) as H2.
    { intros E. apply (is_fresh (dom s1)). fold l2. rewrite <- E.
      subst s1. rewrite dom_insert. by apply elem_of_union_r. }
    subst s1. by rewrite !lookup_insert_ne.
  - split.
    + unfold calculate_demand. cbn [loads]. by rewrite E1.
    + intros f. unfold list_mutate. rewrite deref_insert_ne by done.
      rewrite deref_insert_ne by done. subst s1. apply deref_insert_eq.
Qed.

End Composition.

(** ** The sizing and cost figures *)

Section Sizing.

Lemma calculate_demand_kwh (c : SolarDemandCalculator) (s : store) d :
  (calculate_demand c s).1 = Ok d ->
  (deref s (loads c) = [] /\ d = zero_demand) \/
  (deref s (loads c) ≠ [] /\
   exists kwh ah,
     int_truediv (total_energy_wh d) 1000 = Ok kwh /\
     int_truediv (total_energy_wh d) (system_voltage c) = Ok ah /\
     total_energy_kwh d = PFloat kwh /\ total_ah d = PFloat ah).
Proof.
  unfold calculate_demand.
  destruct (deref s (loads c)) as [| x xs]; cbn [fst].
  - intros [= <-]. by left.
  - cbv zeta.
    destruct (int_truediv _ 1000) as [kwh | e] eqn:E1; cbn [bind];
      [| discriminate].
    destruct (int_truediv _ (system_voltage c)) as [ah | e] eqn:E2;
      cbn [bind]; [| discriminate].
    intros [= <-]. right. split; [done |]. by exists kwh, ah.
Qed.

Lemma py_mul_float_int f k :
  (exists g, float_of_int k = Ok g) ->
  exists r, py_mul (PFloat f) (PInt k) = Ok (PFloat r).
Proof. intros [g E]. unfold py_mul. rewrite E. cbn [bind]. eauto. Qed.

Lemma pv_size_float d f :
  total_energy_kwh d = PFloat f ->
  pv_size d = Ok (PFloat (SFdiv prec emax f (float_lit 45 10))).
Proof. intros E. unfold pv_size. rewrite E. reflexivity. Qed.

Lemma equipment_cost_float d f :
  total_energy_kwh d = PFloat f ->
  exists r, equipment_cost d = Ok (PFloat r).
Proof.
  intros E. unfold equipment_cost. rewrite (pv_size_float d f E), E.
  cbn [bind].
  destruct (py_mul_float_int (SFdiv prec emax f (float_lit 45 10)) 1200)
    as [a ->]; [by eexists; vm_compute |].
  cbn [bind].
  destruct (py_mul_float_int f 2) as [b ->]; [by eexists; vm_compute |].
  cbn [bind].
  destruct (py_mul_float_int b 600) as [b' ->]; [by eexists; vm_compute |].
  cbn [bind py_add]. eauto.
Qed.

(** On every result of [calculate_demand], of either branch, the PV size,
    the battery capacity and the three costs are computed without an
    exception; so is the inverter rating when the peak is below [2 ^ 1023]. *)
Theorem sizing_never_raises (c : SolarDemandCalculator) (s : store) d :
  (calculate_demand c s).1 = Ok d ->
  (exists p, pv_size d = Ok p) /\
  (exists b, battery_capacity_kwh d = Ok b) /\
  (exists e, equipment_cost d = Ok e) /\
  (exists t, total_cost d = Ok t) /\
  (exists n, installation_cost d = Ok n) /\
  (Z.abs (peak_power_w d) < 2 ^ 1023 -> exists i, inverter_kw d = Ok i).
Proof.
  intros H.
  assert (Z.abs (peak_power_w d) < 2 ^ 1023 -> exists i, inverter_kw d = Ok i)
    as Hinv.
  { intros Hp. unfold inverter_kw, py_truediv.
    destruct (int_truediv_in_range (peak_power_w d) 1000) as (kw & -> & _);
      [lia | exact Hp |].
    cbn [bind py_mul]. eauto. }
  apply calculate_demand_kwh in H
    as [[_ ->] | [_ (kwh & ah & _ & _ & Ek & _)]].
  - repeat split; try exact Hinv; eexists; vm_compute; reflexivity.
  - destruct (equipment_cost_float d kwh Ek) as [e He].
    split; [rewrite (pv_size_float d kwh Ek); eauto |].
    split.
    { unfold battery_capacity_kwh. rewrite Ek.
      destruct (py_mul_float_int kwh 2) as [b ->];
        [by eexists; vm_compute | eauto]. }
    split; [eauto |].
    split; [unfold total_cost; rewrite He; cbn [bind py_mul]; eauto |].
    split; [unfold installation_cost; rewrite He; cbn [bind py_mul]; eauto |].
    exact Hinv.
Qed.

Lemma sizing_never_raises_witness :
  let c := {| system_voltage := 48; loads := 1%positive |} in
  let s : store := {[ 1%positive := [make_load "LED Light" 20 15 10] ]} in
  exists d,
    (calculate_demand c s).1 = Ok d /\
    (exists p, pv_size d = Ok p) /\
    (exists b, battery_capacity_kwh d = Ok b) /\
    (exists e, equipment_cost d = Ok e) /\
    (exists t, total_cost d = Ok t) /\
    (exists n, installation_cost d = Ok n) /\
    (Z.abs (peak_power_w d) < 2 ^ 1023 -> exists i, inverter_kw d = Ok i).
Proof.
  intros c s. eexists. split; [vm_compute; reflexivity |].
  apply (sizing_never_raises c s). vm_compute. reflexivity.
Defined.

End Sizing.

(** ** Sessions of the page *)

Section Page.

Implicit Types (s : store) (ss : SessionState) (e : event).

Lemma add_load_then {A} (c : SolarDemandCalculator) d p q h (k : M A) s :
  (add_load c d p q h;; k) s
  = k (<[loads c := deref s (loads c) ++ [make_load d p q h]]> s).
Proof. reflexivity. Qed.

Lemma three_adds c ss s d1 p1 q1 h1 d2 p2 q2 h2 d3 p3 q3 h3 :
  (add_load c d1 p1 q1 h1;;
   add_load c d2 p2 q2 h2;;
   add_load c d3 p3 q3 h3;;
   ret (sync_loads ss)) s
  = (Ok (sync_loads ss),
     <[loads c := deref s (loads c)
                    ++ [make_load d1 p1 q1 h1; make_load d2 p2 q2 h2;
                        make_load d3 p3 q3 h3]]> s).
Proof.
  rewrite !add_load_then. unfold ret.
  rewrite !deref_insert_eq, !insert_insert_eq, <- !app_assoc. reflexivity.
Qed.

Lemma calculate_demand_store (c : SolarDemandCalculator) s :
  (calculate_demand c s).2 = s.
Proof. unfold calculate_demand. by destruct (deref s (loads c)). Qed.

Lemma render_summary_store ss s : (render_summary ss s).2 = s.
Proof.
  unfold render_summary, mbind, M_bind, seq, lift, mret, M_ret, ret.
  pose proof (calculate_demand_store (calculator ss) s) as H.
  destruct (calculate_demand (calculator ss) s) as [[d | e] s1];
    cbn [snd] in H; subst s1; [| reflexivity].
  destruct (py_truediv _ _) as [kw | e]; [| reflexivity].
  by destruct (pv_size d).
Qed.

Lemma clear_button_empty ss s :
  exists ss' s',
    clear_button ss s = (Ok ss', s') /\
    system_voltage (calculator ss') = system_voltage (calculator ss) /\
    deref s' (loads (calculator ss')) = [] /\
    deref s' (ss_loads ss') = [].
Proof.
  eexists _, _. split; [reflexivity |]. cbn [calculator ss_loads loads].
  split; [reflexivity |]. split; [| apply deref_insert_eq].
  rewrite deref_insert_ne; [apply deref_insert_eq |].
  intros E. apply (is_fresh (dom (<[fresh (dom s) := []]> s))).
  rewrite E. apply elem_of_dom. rewrite lookup_insert_eq. eauto.
Qed.

Lemma within_bounds_make d p q h :
  truthy d = true -> 1 <= p -> 1 <= q -> 1 <= h <= 24 ->
  within_widget_bounds (make_load d p q h).
Proof. intros. unfold within_widget_bounds. simpl. repeat split; lia || done. Qed.

Lemma in_bounds_load f :
  in_bounds f = true ->
  within_widget_bounds
    (make_load (name_to_use f) (Form.power_w f) (Form.quantity f)
       (Form.hours_per_day f)).
Proof.
  unfold in_bounds. rewrite !andb_true_iff, bool_decide_eq_true, !Z.leb_le.
  intros [[[[Ho Hp] Hq] Hh] Hh']. apply within_bounds_make; try lia.
  unfold name_to_use. destruct (truthy (Form.custom_name f)) eqn:E.
  - exact E.
  - by apply appliance_options_truthy.
Qed.

Lemma names_agree_deref ss s :
  names_agree ss s ->
  deref s (ss_loads ss) = deref s (loads (calculator ss)).
Proof. intros [-> | [-> ->]]; reflexivity. Qed.

(** A press of an offered button keeps the invariant; when its rerun
    raises, the store is as it was. *)
Lemma on_event_invariant e ss s :
  ui_invariant ss s -> offered e ss s = true ->
  match on_event e ss s with
  | (Ok ss', s') => ui_invariant ss' s'
  | (Raise _, s') => s' = s
  end.
Proof.
  intros (Hn & Hv & Hb) Ho.
  assert (forall x y z,
            within_widget_bounds x -> within_widget_bounds y ->
            within_widget_bounds z ->
            ui_invariant (sync_loads ss)
              (<[loads (calculator ss) :=
                   deref s (loads (calculator ss)) ++ [x; y; z]]> s))
    as Hquick.
  { intros x y z Hx Hy Hz. split; [by left |]. split; [exact Hv |].
    cbn [sync_loads calculator]. rewrite deref_insert_eq.
    apply Forall_app. split; [exact Hb |].
    repeat (constructor; [assumption |]). constructor. }
  destruct e as [f | i | | | |]; cbn [on_event offered] in *.
  - unfold add_load_click. rewrite add_load_button_eq.
    split; [by left |]. split; [exact Hv |].
    cbn [sync_loads calculator]. rewrite deref_insert_eq.
    apply Forall_app. split; [exact Hb |].
    constructor; [by apply in_bounds_load | constructor].
  - apply bool_decide_eq_true in Ho.
    rewrite (names_agree_deref ss s Hn) in Ho.
    destruct (lookup_lt_is_Some_2 _ _ Ho) as [x Hx].
    rewrite delete_button_eq, (list_pop_nat_lt _ _ _ x Hx).
    split; [by left |]. split; [exact Hv |].
    cbn [sync_loads calculator]. rewrite deref_insert_eq.
    by apply Forall_delete.
  - unfold mbind, M_bind, seq.
    pose proof (render_summary_store ss s) as Hs.
    destruct (render_summary ss s) as [[sm | ex] s1]; cbn [snd] in Hs;
      subst s1; [| reflexivity].
    destruct (clear_button_empty ss s) as (ss' & s' & -> & Hv' & E1 & E2).
    split; [right; by split |]. split; [by rewrite Hv' |].
    rewrite E1. constructor.
  - unfold small_office_button. rewrite three_adds.
    apply Hquick; by apply within_bounds_make.
  - unfold retail_store_button. rewrite three_adds.
    apply Hquick; by apply within_bounds_make.
  - unfold workshop_button. rewrite three_adds.
    apply Hquick; by apply within_bounds_make.
Qed.

Lemma ui_run_invariant es : forall ss s ss' s',
  ui_invariant ss s -> ui_run es ss s = Some (ss', s') ->
  ui_invariant ss' s'.
Proof.
  induction es as [| e rest IH]; intros ss s ss' s' Hi; simpl.
  - by intros [= <- <-].
  - destruct (offered e ss s) eqn:Ho; [| discriminate].
    pose proof (on_event_invariant e ss s Hi Ho) as He.
    destruct (on_event e ss s) as [[ss1 | ex] s1].
    + by apply IH.
    + subst s1. by apply IH.
Qed.

Lemma ui_session_invariant es ss s :
  ui_session es = Some (ss, s) -> ui_invariant ss s.
Proof.
  unfold ui_session.
  change (init_session ∅) with
    (Ok {| calculator := {| system_voltage := 48; loads := 1%positive |};
           ss_loads := fresh (dom ({[ 1%positive := [] ]} : store)) |},
     <[fresh (dom ({[ 1%positive := [] ]} : store)) := []]>
       ({[ 1%positive := [] ]} : store)).
  apply ui_run_invariant.
  split; [right; by split |]. split; [reflexivity | constructor].
Qed.

End Page.

(** ** What a session of the page guarantees *)

Section PageProperties.

Implicit Types (s : store) (ss : SessionState) (e : event).

Lemma widget_bounds_totals xs :
  Forall within_widget_bounds xs ->
  0 <= total (map (fun load => power_w load * quantity load) xs) /\
  total (map (fun load => power_w load * quantity load) xs)
    <= total (map daily_energy_wh xs) /\
  total (map daily_energy_wh xs)
    <= 24 * total (map (fun load => power_w load * quantity load) xs) /\
  (xs ≠ [] ->
   1 <= total (map (fun load => power_w load * quantity load) xs)).
Proof.
  induction 1 as [| x xs (Ht & Hp & Hq & Hh & He) _ IH]; simpl.
  - repeat split; first [lia | by intros []].
  - destruct IH as (I0 & I1 & I2 & _). rewrite He.
    repeat split; first [nia | intros _; nia].
Qed.

Lemma binary_round_aux_sign m ex l :
  sign_bit (binary_round_aux prec emax false m ex l) = false.
Proof.
  unfold binary_round_aux.
  destruct (shr_fexp prec emax m ex l) as [mrs' e'].
  destruct (shr_fexp prec emax _ e' loc_Exact) as [mrs'' e''].
  destruct (shr_m mrs''); [reflexivity | | reflexivity].
  by destruct (_ <=? _).
Qed.

(** The quotient of a non-negative int by a positive one has no sign. *)
Lemma int_truediv_sign a b f :
  0 <= a -> 0 < b -> int_truediv a b = Ok f -> sign_bit f = false.
Proof.
  intros Ha Hb. unfold int_truediv.
  destruct (b =? 0); [discriminate |].
  assert (sign_bit (SFdiv prec emax (exact_of_int a) (exact_of_int b))
            = false) as Hs.
  { destruct a as [| pa | pa], b as [| pb | pb]; try lia;
      cbn [exact_of_int SFdiv xorb]; [reflexivity |].
    destruct (SFdiv_core_binary prec emax (Zpos pa) 0 (Zpos pb) 0)
      as [[mz ez] lz].
    apply binary_round_aux_sign. }
  destruct (is_inf _); [discriminate |]. by intros [= <-].
Qed.

Lemma calculate_demand_ok (c : SolarDemandCalculator) s :
  deref s (loads c) ≠ [] ->
  system_voltage c ≠ 0 ->
  Z.abs (total (map daily_energy_wh (deref s (loads c)))) < 2 ^ 1023 ->
  exists kwh ah,
    int_truediv (total (map daily_energy_wh (deref s (loads c)))) 1000
      = Ok kwh /\
    is_finite kwh = true /\
    int_truediv (total (map daily_energy_wh (deref s (loads c))))
      (system_voltage c) = Ok ah /\
    is_finite ah = true /\
    calculate_demand c s
      = (Ok {| total_energy_wh :=
                 total (map daily_energy_wh (deref s (loads c)));
               total_energy_kwh := PFloat kwh;
               total_ah := PFloat ah;
               peak_power_w :=
                 total (map (fun load => power_w load * quantity load)
                          (deref s (loads c))) |}, s).
Proof.
  intros Hne Hv Hb. unfold calculate_demand.
  destruct (deref s (loads c)) as [| x xs] eqn:E; [done |].
  cbv zeta. rewrite !py_sum_total.
  destruct (int_truediv_in_range (total (map daily_energy_wh (x :: xs))) 1000)
    as (kwh & Ek & Fk); [lia | exact Hb |].
  destruct (int_truediv_in_range (total (map daily_energy_wh (x :: xs)))
              (system_voltage c)) as (ah & Ea & Fa); [exact Hv | exact Hb |].
  exists kwh, ah. rewrite Ek, Ea. by repeat split.
Qed.

Lemma seq_ok {A B} (m : M A) (k : A -> M B) s a s' :
  m s = (Ok a, s') -> (x ← m; k x) s = k a s'.
Proof. intros E. unfold mbind, M_bind, seq. by rewrite E. Qed.

Lemma lift_ok {A} (a : A) s : lift (Ok a) s = (Ok a, s).
Proof. reflexivity. Qed.

Lemma render_tabs_ok d kwh s :
  total_energy_kwh d = PFloat kwh ->
  Z.abs (peak_power_w d) < 2 ^ 1023 ->
  exists tb, render_tabs d s = (Ok tb, s).
Proof.
  intros Ek Hp. unfold render_tabs.
  assert (exists b, battery_capacity_kwh d = Ok b) as [b Eb].
  { unfold battery_capacity_kwh. rewrite Ek.
    destruct (py_mul_float_int kwh 2) as [b ->];
      [by eexists; vm_compute | eauto]. }
  assert (exists i, inverter_kw d = Ok i) as [i Ei].
  { unfold inverter_kw, py_truediv.
    destruct (int_truediv_in_range (peak_power_w d) 1000) as (kw & -> & _);
      [lia | exact Hp |].
    cbn [bind py_mul]. eauto. }
  destruct (equipment_cost_float d kwh Ek) as [q Eq].
  assert (exists t, total_cost d = Ok t) as [t Et]
    by (unfold total_cost; rewrite Eq; cbn [bind py_mul]; eauto).
  assert (exists n, installation_cost d = Ok n) as [n En]
    by (unfold installation_cost; rewrite Eq; cbn [bind py_mul]; eauto).
  rewrite Eb, Ei, Eq, Et, En.
  eexists. repeat (erewrite seq_ok by apply lift_ok). reflexivity.
Qed.

(** The summary of a registry with loads, at a voltage other than zero
    and a total below [2 ^ 1023]. *)
Lemma render_summary_ok ss s :
  deref s (loads (calculator ss)) ≠ [] ->
  system_voltage (calculator ss) ≠ 0 ->
  Z.abs (total (map daily_energy_wh (deref s (loads (calculator ss)))))
    < 2 ^ 1023 ->
  Z.abs (total (map (fun load => power_w load * quantity load)
                  (deref s (loads (calculator ss))))) < 2 ^ 1023 ->
  exists sm kwh ah,
    render_summary ss s = (Ok sm, s) /\
    calculate_demand (calculator ss) s = (Ok (results sm), s) /\
    total_energy_kwh (results sm) = PFloat kwh /\
    total_ah (results sm) = PFloat ah /\
    int_truediv (total_energy_wh (results sm)) 1000 = Ok kwh /\
    int_truediv (total_energy_wh (results sm))
      (system_voltage (calculator ss)) = Ok ah /\
    is_finite kwh = true /\ is_finite ah = true.
Proof.
  intros Hne Hv Ht Hp.
  destruct (calculate_demand_ok (calculator ss) s Hne Hv Ht)
    as (kwh & ah & Ek & Fk & Ea & Fa & Ed).
  destruct (int_truediv_in_range
              (total (map (fun load => power_w load * quantity load)
                        (deref s (loads (calculator ss))))) 1000)
    as (kw & Ekw & _); [lia | exact Hp |].
  unfold render_summary. erewrite seq_ok by exact Ed.
  cbn [peak_power_w]. unfold py_truediv at 1. rewrite Ekw. cbn [bind].
  erewrite seq_ok by apply lift_ok.
  erewrite pv_size_float by reflexivity.
  erewrite seq_ok by apply lift_ok.
  eexists _, kwh, ah. split; [reflexivity |]. cbn [results].
  by repeat split.
Qed.

(** In every state of a session, [session_state.loads] and
    [calculator.loads] hold the same loads: the guard of the page, which
    reads the first, and the demand, which reads the second, agree. *)
Theorem session_names_hold_same_loads es ss s :
  ui_session es = Some (ss, s) ->
  deref s (ss_loads ss) = deref s (loads (calculator ss)).
Proof.
  intros H. apply names_agree_deref.
  by destruct (ui_session_invariant es ss s H) as (Hn & _).
Qed.

Lemma session_names_hold_same_loads_witness :
  exists ss s,
    ui_session [ClickSmallOffice; ClickDelete 1; ClickClear; ClickWorkshop]
      = Some (ss, s) /\
    deref s (ss_loads ss) = deref s (loads (calculator ss)).
Proof.
  eexists _, _. split; [vm_compute; reflexivity |].
  apply (session_names_hold_same_loads
           [ClickSmallOffice; ClickDelete 1; ClickClear; ClickWorkshop]).
  vm_compute. reflexivity.
Defined.

(** In every state of a session the calculator is at 48 V, and every load
    of the registry has a description that is not empty, a power and a
    quantity of at least 1, between 1 and 24 hours, and the energy that
    these three give. *)
Theorem session_loads_within_bounds es ss s :
  ui_session es = Some (ss, s) ->
  system_voltage (calculator ss) = 48 /\
  Forall (fun load =>
            description load ≠ "" /\
            1 <= power_w load /\
            1 <= quantity load /\
            1 <= hours_per_day load <= 24 /\
            daily_energy_wh load
              = power_w load * quantity load * hours_per_day load)
    (deref s (loads (calculator ss))).
Proof.
  intros H. destruct (ui_session_invariant es ss s H) as (_ & Hv & Hb).
  split; [exact Hv |].
  eapply Forall_impl; [exact Hb |].
  intros load (Ht & Hrest). split; [| exact Hrest].
  intros E. by rewrite E in Ht.
Qed.

Lemma session_loads_within_bounds_witness :
  exists ss s,
    ui_session
      [ClickAddLoad {| Form.appliance_name := "Printer";
                       Form.custom_name := "Plotter";
                       Form.power_w := 250; Form.quantity := 2;
                       Form.hours_per_day := 3 |};
       ClickAddLoad {| Form.appliance_name := "Refrigerator";
                       Form.custom_name := "";
                       Form.power_w := 300; Form.quantity := 1;
                       Form.hours_per_day := 24 |}]
      = Some (ss, s) /\
    system_voltage (calculator ss) = 48 /\
    Forall (fun load =>
              description load ≠ "" /\
              1 <= power_w load /\
              1 <= quantity load /\
              1 <= hours_per_day load <= 24 /\
              daily_energy_wh load
                = power_w load * quantity load * hours_per_day load)
      (deref s (loads (calculator ss))).
Proof.
  eexists _, _. split; [vm_compute; reflexivity |].
  apply (session_loads_within_bounds
           [ClickAddLoad {| Form.appliance_name := "Printer";
                            Form.custom_name := "Plotter";
                            Form.power_w := 250; Form.quantity := 2;
                            Form.hours_per_day := 3 |};
            ClickAddLoad {| Form.appliance_name := "Refrigerator";
                            Form.custom_name := "";
                            Form.power_w := 300; Form.quantity := 1;
                            Form.hours_per_day := 24 |}]).
  vm_compute. reflexivity.
Defined.

(** In every state of a session, the demand that is computed has a total
    energy between its peak power and 24 times its peak power, and with
    loads in the registry the peak is at least 1 W. *)
Theorem session_energy_between_peak_and_day es ss s d :
  ui_session es = Some (ss, s) ->
  (calculate_demand (calculator ss) s).1 = Ok d ->
  peak_power_w d <= total_energy_wh d <= 24 * peak_power_w d /\
  (deref s (ss_loads ss) ≠ [] -> 1 <= peak_power_w d).
Proof.
  intros H Hd. destruct (ui_session_invariant es ss s H) as (Hn & _ & Hb).
  apply calculate_demand_sums in Hd as [-> ->].
  destruct (widget_bounds_totals _ Hb) as (_ & H1 & H2 & H3).
  rewrite (names_agree_deref ss s Hn). by repeat split.
Qed.

Lemma session_energy_between_peak_and_day_witness :
  exists ss s d,
    ui_session [ClickRetailStore; ClickDelete 0] = Some (ss, s) /\
    (calculate_demand (calculator ss) s).1 = Ok d /\
    peak_power_w d <= total_energy_wh d <= 24 * peak_power_w d /\
    (deref s (ss_loads ss) ≠ [] -> 1 <= peak_power_w d).
Proof.
  eexists _, _, _. split; [vm_compute; reflexivity |].
  split; [vm_compute; reflexivity |].
  apply (session_energy_between_peak_and_day [ClickRetailStore; ClickDelete 0]);
    vm_compute; reflexivity.
Defined.

(** In every state of a session, the rerun of every button that the page
    offers returns without an exception (the "Delete" buttons raise no
    [IndexError]); for "Clear All Loads", which the script reaches after the
    summary, this holds when the total energy is below [2 ^ 1023]. *)
Theorem offered_buttons_never_raise es ss s e :
  ui_session es = Some (ss, s) ->
  offered e ss s = true ->
  (e = ClickClear ->
   total (map daily_energy_wh (deref s (loads (calculator ss)))) < 2 ^ 1023) ->
  exists ss' s', on_event e ss s = (Ok ss', s').
Proof.
  intros H Ho Hc.
  destruct (ui_session_invariant es ss s H) as (Hn & Hv & Hb).
  destruct e as [f | i | | | |]; cbn [on_event offered] in *.
  - unfold add_load_click. rewrite add_load_button_eq. eauto.
  - apply bool_decide_eq_true in Ho.
    rewrite (names_agree_deref ss s Hn) in Ho.
    destruct (lookup_lt_is_Some_2 _ _ Ho) as [x Hx].
    rewrite delete_button_eq, (list_pop_nat_lt _ _ _ x Hx). eauto.
  - rewrite (names_agree_deref ss s Hn) in Ho.
    destruct (widget_bounds_totals _ Hb) as (H0 & H1 & H2 & _).
    specialize (Hc eq_refl).
    destruct (render_summary_ok ss s) as (sm & _ & _ & Es & _).
    + intros E. by rewrite E in Ho.
    + rewrite Hv. discriminate.
    + lia.
    + lia.
    + erewrite seq_ok by exact Es.
      destruct (clear_button_empty ss s) as (ss' & s' & -> & _). eauto.
  - unfold small_office_button. rewrite three_adds. eauto.
  - unfold retail_store_button. rewrite three_adds. eauto.
  - unfold workshop_button. rewrite three_adds. eauto.
Qed.

Lemma offered_buttons_never_raise_witness :
  exists ss s ss' s',
    ui_session [ClickSmallOffice] = Some (ss, s) /\
    on_event (ClickDelete 2) ss s = (Ok ss', s').
Proof.
  eexists _, _. 
  destruct (offered_buttons_never_raise [ClickSmallOffice]
              (sync_loads
                 {| calculator :=
                      {| system_voltage := 48; loads := 1%positive |};
                    ss_loads := 2%positive |})
              (<[1%positive :=
                   [make_load "LED Lights" 20 15 10;
                    make_load "Computers" 150 5 8;
                    make_load "AC Unit" 1500 1 6]]>
                 (<[2%positive := []]> ({[ 1%positive := [] ]} : store)))
              (ClickDelete 2)) as (ss' & s' & E).
  - vm_compute. reflexivity.
  - vm_compute. reflexivity.
  - discriminate.
  - exists ss', s'. split; [vm_compute; reflexivity | exact E].
Defined.

(** In every state of a session with a total energy below [2 ^ 1023],
    the figures of the results section are computed without an exception.
    Without loads there are none; with loads, the demand comes from the
    second branch of [calculate_demand]: its kWh and Ah entries are finite
    doubles without a sign, the Ah being the total divided by 48. This is
    about the arithmetic of the section; the table drawn before it and the
    calls that display the figures are outside [results_section]. *)
Theorem results_section_computes es ss s :
  ui_session es = Some (ss, s) ->
  total (map daily_energy_wh (deref s (loads (calculator ss)))) < 2 ^ 1023 ->
  (deref s (loads (calculator ss)) = [] /\
   results_section ss s = (Ok None, s)) \/
  (deref s (loads (calculator ss)) ≠ [] /\
   exists sm tb kwh ah,
     results_section ss s = (Ok (Some (sm, tb)), s) /\
     calculate_demand (calculator ss) s = (Ok (results sm), s) /\
     total_energy_kwh (results sm) = PFloat kwh /\
     total_ah (results sm) = PFloat ah /\
     int_truediv (total_energy_wh (results sm)) 1000 = Ok kwh /\
     int_truediv (total_energy_wh (results sm)) 48 = Ok ah /\
     is_finite kwh = true /\ sign_bit kwh = false /\
     is_finite ah = true /\ sign_bit ah = false).
Proof.
  intros H Ht.
  destruct (ui_session_invariant es ss s H) as (Hn & Hv & Hb).
  destruct (widget_bounds_totals _ Hb) as (H0 & H1 & H2 & _).
  unfold results_section. rewrite (names_agree_deref ss s Hn).
  destruct (deref s (loads (calculator ss))) as [| x xs] eqn:E;
    [by left | right]. split; [done |].
  destruct (render_summary_ok ss s)
    as (sm & kwh & ah & Es & Ed & Ek & Ea & Dk & Da & Fk & Fa);
    try (rewrite E; lia || done).
  { rewrite Hv. discriminate. }
  pose proof Ed as Hsum. apply (f_equal fst) in Hsum. cbn [fst] in Hsum.
  apply calculate_demand_sums in Hsum as [Hwh Hpk]. rewrite E in Hwh, Hpk.
  destruct (render_tabs_ok (results sm) kwh s Ek) as [tb Etb];
    [rewrite Hpk; lia |].
  rewrite Hv in Da. change default_voltage with 48 in Da.
  exists sm, tb, kwh, ah.
  erewrite seq_ok by exact Es. erewrite seq_ok by exact Etb.
  repeat split; try assumption.
  - eapply int_truediv_sign; [| | exact Dk]; rewrite ?Hwh; lia.
  - eapply int_truediv_sign; [| | exact Da]; rewrite ?Hwh; lia.
Qed.

Lemma results_section_computes_witness :
  exists ss s sm tb,
    ui_session [ClickSmallOffice] = Some (ss, s) /\
    results_section ss s = (Ok (Some (sm, tb)), s).
Proof.
  eexists _, _.
  destruct (results_section_computes [ClickSmallOffice]
              (sync_loads
                 {| calculator :=
                      {| system_voltage := 48; loads := 1%positive |};
                    ss_loads := 2%positive |})
              (<[1%positive :=
                   [make_load "LED Lights" 20 15 10;
                    make_load "Computers" 150 5 8;
                    make_load "AC Unit" 1500 1 6]]>
                 (<[2%positive := []]> ({[ 1%positive := [] ]} : store))))
    as [[E _] | (_ & sm & tb & _ & _ & Er & _)].
  - vm_compute. reflexivity.
  - vm_compute. reflexivity.
  - vm_compute in E. discriminate.
  - exists sm, tb. split; [vm_compute; reflexivity | exact Er].
Defined.

(** In a session, pressing "Add Load" raises the total energy of the
    demand by the product of the power, the quantity and the hours of the
    form, and the peak by the power times the quantity, whenever the demand
    is computed before and after; the numbers of the form are ints within
    the bounds of their inputs, so both grow by at least 1. *)
Theorem add_load_click_adds_to_demand es ss s f ss' s' dm dm' :
  ui_session es = Some (ss, s) ->
  offered (ClickAddLoad f) ss s = true ->
  on_event (ClickAddLoad f) ss s = (Ok ss', s') ->
  (calculate_demand (calculator ss) s).1 = Ok dm ->
  (calculate_demand (calculator ss') s').1 = Ok dm' ->
  total_energy_wh dm'
    = total_energy_wh dm
      + Form.power_w f * Form.quantity f * Form.hours_per_day f /\
  peak_power_w dm' = peak_power_w dm + Form.power_w f * Form.quantity f /\
  1 <= Form.power_w f * Form.quantity f
    <= Form.power_w f * Form.quantity f * Form.hours_per_day f.
Proof.
  intros _ Ho He H H'. cbn [offered on_event] in Ho, He.
  unfold add_load_click in He. rewrite add_load_button_eq in He.
  injection He as <- <-.
  apply calculate_demand_sums in H as [Ht Hp].
  apply calculate_demand_sums in H' as [Ht' Hp'].
  cbn [sync_loads calculator] in Ht', Hp'.
  rewrite deref_insert_eq in Ht', Hp'.
  rewrite map_app, total_app in Ht', Hp'. simpl in Ht', Hp'.
  destruct (in_bounds_load f Ho) as (_ & B1 & B2 & B3 & _).
  cbn [make_load power_w quantity hours_per_day] in B1, B2, B3.
  repeat split; nia.
Qed.

Lemma add_load_click_adds_to_demand_witness :
  let f := {| Form.appliance_name := "Computer"; Form.custom_name := "";
              Form.power_w := 150; Form.quantity := 5;
              Form.hours_per_day := 8 |} in
  exists ss s ss' s' dm dm',
    ui_session [ClickSmallOffice] = Some (ss, s) /\
    on_event (ClickAddLoad f) ss s = (Ok ss', s') /\
    (calculate_demand (calculator ss) s).1 = Ok dm /\
    (calculate_demand (calculator ss') s').1 = Ok dm' /\
    total_energy_wh dm' = total_energy_wh dm + 150 * 5 * 8 /\
    peak_power_w dm' = peak_power_w dm + 150 * 5.
Proof.
  intros f.
  destruct (ui_session [ClickSmallOffice]) as [[ss s] |] eqn:E;
    [| vm_compute in E; discriminate].
  destruct (on_event (ClickAddLoad f) ss s) as [[ss' | ex] s'] eqn:Ev;
    [| vm_compute in E; injection E as <- <-; vm_compute in Ev; discriminate].
  destruct (calculate_demand (calculator ss) s) as [[dm | ex] s1] eqn:D;
    [| vm_compute in E; injection E as <- <-; vm_compute in D; discriminate].
  destruct (calculate_demand (calculator ss') s') as [[dm' | ex] s2] eqn:D';
    [| vm_compute in E; injection E as <- <-;
       vm_compute in Ev; injection Ev as <- <-;
       vm_compute in D'; discriminate].
  destruct (add_load_click_adds_to_demand [ClickSmallOffice] ss s f ss' s'
              dm dm') as (Ht & Hp & _).
  - exact E.
  - reflexivity.
  - exact Ev.
  - by rewrite D.
  - by rewrite D'.
  - exists ss, s, ss', s', dm, dm'. rewrite D, D'.
    by repeat split.
Defined.

(** In a session, pressing the "Delete" button of a row lowers the total
    energy of the demand by the energy of the load shown in that row, which
    is the product of its three ints, and the peak by its power times its
    quantity, whenever the demand is computed before and after. *)
Theorem delete_click_subtracts_from_demand es ss s i x ss' s' dm dm' :
  ui_session es = Some (ss, s) ->
  deref s (ss_loads ss) !! i = Some x ->
  on_event (ClickDelete i) ss s = (Ok ss', s') ->
  (calculate_demand (calculator ss) s).1 = Ok dm ->
  (calculate_demand (calculator ss') s').1 = Ok dm' ->
  total_energy_wh dm
    = total_energy_wh dm' + power_w x * quantity x * hours_per_day x /\
  peak_power_w dm = peak_power_w dm' + power_w x * quantity x.
Proof.
  intros Hs Hx He H H'.
  destruct (ui_session_invariant es ss s Hs) as (Hn & _ & Hb).
  rewrite (names_agree_deref ss s Hn) in Hx.
  assert (daily_energy_wh x = power_w x * quantity x * hours_per_day x)
    as Hex.
  { pose proof (proj1 (Forall_lookup _ _) Hb i x Hx) as Hw.
    by destruct Hw as (_ & _ & _ & _ & Hw). }
  cbn [on_event] in He.
  rewrite delete_button_eq, (list_pop_nat_lt _ _ _ x Hx) in He.
  injection He as <- <-.
  apply calculate_demand_sums in H as [Ht Hp].
  apply calculate_demand_sums in H' as [Ht' Hp'].
  cbn [sync_loads calculator] in Ht', Hp'.
  rewrite deref_insert_eq in Ht', Hp'.
  rewrite delete_take_drop in Ht', Hp'.
  rewrite <- (take_drop_middle _ _ _ Hx) in Ht, Hp.
  rewrite map_app, total_app in Ht, Hp, Ht', Hp'.
  simpl in Ht, Hp. lia.
Qed.

Lemma delete_click_subtracts_from_demand_witness :
  exists ss s ss' s' dm dm',
    ui_session [ClickSmallOffice] = Some (ss, s) /\
    deref s (ss_loads ss) !! 1%nat = Some (make_load "Computers" 150 5 8) /\
    on_event (ClickDelete 1) ss s = (Ok ss', s') /\
    (calculate_demand (calculator ss) s).1 = Ok dm /\
    (calculate_demand (calculator ss') s').1 = Ok dm' /\
    total_energy_wh dm = total_energy_wh dm' + 150 * 5 * 8 /\
    peak_power_w dm = peak_power_w dm' + 150 * 5.
Proof.
  destruct (ui_session [ClickSmallOffice]) as [[ss s] |] eqn:E;
    [| vm_compute in E; discriminate].
  assert (deref s (ss_loads ss) !! 1%nat
            = Some (make_load "Computers" 150 5 8)) as Hx
    by (vm_compute in E; injection E as <- <-; vm_compute; reflexivity).
  destruct (on_event (ClickDelete 1) ss s) as [[ss' | ex] s'] eqn:Ev;
    [| vm_compute in E; injection E as <- <-; vm_compute in Ev; discriminate].
  destruct (calculate_demand (calculator ss) s) as [[dm | ex] s1] eqn:D;
    [| vm_compute in E; injection E as <- <-; vm_compute in D; discriminate].
  destruct (calculate_demand (calculator ss') s') as [[dm' | ex] s2] eqn:D';
    [| vm_compute in E; injection E as <- <-;
       vm_compute in Ev; injection Ev as <- <-;
       vm_compute in D'; discriminate].
  destruct (delete_click_subtracts_from_demand [ClickSmallOffice] ss s 1
              (make_load "Computers" 150 5 8) ss' s' dm dm') as (Ht & Hp).
  - exact E.
  - exact Hx.
  - exact Ev.
  - by rewrite D.
  - by rewrite D'.
  - exists ss, s, ss', s', dm, dm'. rewrite D, D'.
    by repeat split.
Defined.

(** Two sessions whose registries hold the same loads in another order
    show the same demand, floats and exceptions included: the loads of a
    session are made of ints, whose sums do not depend on the order, and
    both calculators are at 48 V. *)
Theorem session_demand_order_independent es1 ss1 s1 es2 ss2 s2 :
  ui_session es1 = Some (ss1, s1) ->
  ui_session es2 = Some (ss2, s2) ->
  deref s1 (loads (calculator ss1)) ≡ₚ deref s2 (loads (calculator ss2)) ->
  (calculate_demand (calculator ss1) s1).1
  = (calculate_demand (calculator ss2) s2).1.
Proof.
  intros H1 H2 Hp.
  destruct (ui_session_invariant es1 ss1 s1 H1) as (_ & Hv1 & _).
  destruct (ui_session_invariant es2 ss2 s2 H2) as (_ & Hv2 & _).
  pose proof (fun f => total_map_permutation f _ _ Hp) as Hsum.
  unfold calculate_demand. rewrite Hv1, Hv2.
  destruct (deref s1 (loads (calculator ss1))) as [| x xs] eqn:E1;
    destruct (deref s2 (loads (calculator ss2))) as [| y ys] eqn:E2.
  - reflexivity.
  - by apply Permutation_nil_cons in Hp.
  - symmetry in Hp. by apply Permutation_nil_cons in Hp.
  - cbv zeta. rewrite !py_sum_total, !Hsum. reflexivity.
Qed.

Lemma session_demand_order_independent_witness :
  let computers :=
    {| Form.appliance_name := "Computer"; Form.custom_name := "Computers";
       Form.power_w := 150; Form.quantity := 5; Form.hours_per_day := 8 |} in
  let ac_unit :=
    {| Form.appliance_name := "AC Unit"; Form.custom_name := "";
       Form.power_w := 1500; Form.quantity := 1; Form.hours_per_day := 6 |} in
  exists ss1 s1 ss2 s2,
    ui_session [ClickSmallOffice; ClickDelete 0] = Some (ss1, s1) /\
    ui_session [ClickAddLoad ac_unit; ClickAddLoad computers]
      = Some (ss2, s2) /\
    deref s1 (loads (calculator ss1)) ≠ deref s2 (loads (calculator ss2)) /\
    (calculate_demand (calculator ss1) s1).1
    = (calculate_demand (calculator ss2) s2).1.
Proof.
  intros computers ac_unit.
  destruct (ui_session [ClickSmallOffice; ClickDelete 0])
    as [[ss1 s1] |] eqn:E1; [| vm_compute in E1; discriminate].
  destruct (ui_session [ClickAddLoad ac_unit; ClickAddLoad computers])
    as [[ss2 s2] |] eqn:E2; [| vm_compute in E2; discriminate].
  exists ss1, s1, ss2, s2.
  split; [reflexivity |]. split; [reflexivity |].
  split.
  - vm_compute in E1, E2. injection E1 as <- <-. injection E2 as <- <-.
    vm_compute. discriminate.
  - apply (session_demand_order_independent
             [ClickSmallOffice; ClickDelete 0] ss1 s1
             [ClickAddLoad ac_unit; ClickAddLoad computers] ss2 s2 E1 E2).
    vm_compute in E1, E2. injection E1 as <- <-. injection E2 as <- <-.
    vm_compute. apply perm_swap.
Defined.

(** A quick-start button is offered only on an empty registry, and its
    rerun leaves in the registry exactly the three loads of the button, in
    their order, under both names of the session. *)
Theorem quick_start_fills_empty_registry es ss s e :
  ui_session es = Some (ss, s) ->
  is_quick_start e = true ->
  offered e ss s = true ->
  deref s (loads (calculator ss)) = [] /\
  exists ss' s',
    on_event e ss s = (Ok ss', s') /\
    deref s' (loads (calculator ss')) = quick_start_loads e /\
    ss_loads ss' = loads (calculator ss').
Proof.
  intros H Hq Ho.
  destruct (ui_session_invariant es ss s H) as (Hn & _).
  assert (deref s (loads (calculator ss)) = []) as E.
  { rewrite <- (names_agree_deref ss s Hn).
    destruct e; try discriminate; cbn [offered] in Ho;
      by destruct (deref s (ss_loads ss)). }
  split; [exact E |].
  destruct e; try discriminate; cbn [on_event quick_start_loads].
  - unfold small_office_button. rewrite three_adds, E. eexists _, _.
    split; [reflexivity |]. cbn [sync_loads calculator ss_loads].
    by rewrite deref_insert_eq.
  - unfold retail_store_button. rewrite three_adds, E. eexists _, _.
    split; [reflexivity |]. cbn [sync_loads calculator ss_loads].
    by rewrite deref_insert_eq.
  - unfold workshop_button. rewrite three_adds, E. eexists _, _.
    split; [reflexivity |]. cbn [sync_loads calculator ss_loads].
    by rewrite deref_insert_eq.
Qed.

Lemma quick_start_fills_empty_registry_witness :
  exists ss s ss' s',
    ui_session [ClickWorkshop; ClickClear] = Some (ss, s) /\
    on_event ClickRetailStore ss s = (Ok ss', s') /\
    deref s' (loads (calculator ss')) = quick_start_loads ClickRetailStore.
Proof.
  destruct (ui_session [ClickWorkshop; ClickClear]) as [[ss s] |] eqn:E;
    [| vm_compute in E; discriminate].
  destruct (quick_start_fills_empty_registry
              [ClickWorkshop; ClickClear] ss s ClickRetailStore)
    as (_ & ss' & s' & Ev & Ed & _).
  - exact E.
  - reflexivity.
  - vm_compute in E. injection E as <- <-. vm_compute. reflexivity.
  - exists ss, s, ss', s'. by repeat split.
Defined.

End PageProperties.
